(** * Validation and classification layer of sb-api (src/types/index.ts)

    A shallow embedding of [validate], [SocketValidate], [RestValidate] and of
    the structural predicates of [MessageTypes], followed by the properties
    that the specification states about them.

    Conventions of the embedding.
    - JavaScript values are the inductive type [value].  Numbers are the
      integer-valued ones ([Z]); [NaN] cannot come out of [JSON.parse].
    - A call either completes normally or throws ([completion]).
    - The calls made to the two collaborators the caller supplies (the io-ts
      decoder and the [onError] hook) are recorded in a trace of [event]s, so
      that "is invoked" and "is never invoked" are statements about the trace.
    - [onError] is a function from its argument to a completion: a run calls
      it at most once ([run_kind_one_hook_call]), so nothing is lost by not
      threading a state of the hook.
    - [type.decode] is taken to return its Either, as io-ts codecs do: a
      codec that throws is outside the embedding, and no property below
      says what a validator throws once the decoder has been called, other
      than for the hook called after a failed decode.
    - [debug(...)] only writes diagnostics and is left out.
    - [msg.toString()] is the identity on text frames; a frame is its text. *)

From Stdlib Require Import ZArith List String Ascii Bool Lia.
From Stdlib Require Import Numbers.DecimalString.
Import ListNotations.

Local Open Scope list_scope.
Local Open Scope string_scope.

(** ** JavaScript values *)

Set Warnings "-register-all".

Inductive value : Type :=
| VUndefined
| VNull
| VBool (b : bool)
| VNum (n : Z)
| VStr (s : string)
| VArr (elems : list value)
| VObj (props : list (string * value))
| VError (name message : string).   (* an instance of a subclass of Error *)

(** What a [throw] carries: the two engine errors the code can run into, or a
    value raised by the caller's hook. *)
Inductive thrown : Type :=
| SyntaxError              (* JSON.parse on text that is not JSON *)
| TypeError                (* property access on null or undefined *)
| Raised (v : value).

Inductive completion (A : Type) : Type :=
| Normal (a : A)
| Throw (e : thrown).
Arguments Normal {A} a.
Arguments Throw {A} e.

(** ToBoolean *)
Definition truthy (v : value) : bool :=
  match v with
  | VUndefined | VNull => false
  | VBool b => b
  | VNum n => negb (Z.eqb n 0)
  | VStr s => negb (String.eqb s EmptyString)
  | VArr _ | VObj _ | VError _ _ => true
  end.

Definition Array_isArray (v : value) : bool :=
  match v with VArr _ => true | _ => false end.

Definition typeof (v : value) : string :=
  match v with
  | VUndefined => "undefined"
  | VNull => "object"
  | VBool _ => "boolean"
  | VNum _ => "number"
  | VStr _ => "string"
  | VArr _ | VObj _ | VError _ _ => "object"
  end.

(** [v === s] for a string literal [s]. *)
Definition strict_eq_string (v : value) (s : string) : bool :=
  match v with VStr s' => String.eqb s' s | _ => false end.

(** [a && b], which yields one of its operands. *)
Definition js_and (a b : value) : value := if truthy a then b else a.

Fixpoint lookup (k : string) (props : list (string * value)) : value :=
  match props with
  | [] => VUndefined
  | (k', v) :: rest => if String.eqb k' k then v else lookup k rest
  end.

(** [o.k] for the field names this module reads (uuid, snapshot, data, event,
    ...): none of them is a property of a built-in prototype, so only plain
    objects have them.  Reading a property of null or undefined throws. *)
Definition get (o : value) (k : string) : completion value :=
  match o with
  | VUndefined | VNull => Throw TypeError
  | VObj props => Normal (lookup k props)
  | VError name message =>
      Normal (if String.eqb k "name" then VStr name
              else if String.eqb k "message" then VStr message
              else VUndefined)
  | _ => Normal VUndefined
  end.

(** ** Arrays of strings: [slice], [join], [length] in a template *)

(** [Array.prototype.slice(start, end)] with its relative-index rule. *)
Definition clamp_index (len i : Z) : Z :=
  if (i <? 0)%Z then Z.max (len + i) 0 else Z.min i len.

Definition slice {A : Type} (l : list A) (from to : Z) : list A :=
  let len := Z.of_nat (List.length l) in
  let k := clamp_index len from in
  let final := clamp_index len to in
  firstn (Z.to_nat (Z.max (final - k) 0)) (skipn (Z.to_nat k) l).

(** [Array.prototype.join(sep)] on strings. *)
Fixpoint join (sep : string) (l : list string) : string :=
  match l with
  | [] => EmptyString
  | [x] => x
  | x :: rest => x ++ sep ++ join sep rest
  end.

(** A non-negative integer inside a template literal. *)
Definition Number_toString (n : nat) : string :=
  NilEmpty.string_of_uint (Nat.to_uint n).

Definition LF : string := String (ascii_of_nat 10) EmptyString.

(** ** The collaborators: io-ts and the caller's hook *)

Inductive event : Type :=
| EvDecode (typeName : string) (data : value)   (* type.decode(data) *)
| EvOnError (err : value).                        (* onError(err) *)

(** A computation: the calls it made, in order, and how it completed. *)
Definition M (A : Type) : Type := (list event * completion A)%type.

Definition ret {A} (a : A) : M A := ([], Normal a).
Definition raise {A} (e : thrown) : M A := ([], Throw e).
Definition bind {A B} (m : M A) (f : A -> M B) : M B :=
  match m with
  | (tr, Normal a) => let (tr', r) := f a in ((tr ++ tr')%list, r)
  | (tr, Throw e) => (tr, Throw e)
  end.
Definition lift {A} (c : completion A) : M A := ([], c).

Declare Scope js_scope.
Delimit Scope js_scope with js.
Notation "x <- m ;; k" := (bind m (fun x => k))
  (at level 61, m at next level, right associativity) : js_scope.
Local Open Scope js_scope.

Definition trace {A} (m : M A) : list event := fst m.
Definition outcome {A} (m : M A) : completion A := snd m.

(** type OnError = (err: any) => any *)
Definition OnError : Type := value -> completion value.

Definition call_onError (onError : OnError) (err : value) : M value :=
  ([EvOnError err], onError err).

Definition NUM_ERRORS : nat := 5.

(** new DataValidationError(msg) *)
Definition DataValidationError (msg : string) : value :=
  VError "DataValidationError" msg.

Section Validation.

(** io-ts is not part of the repository.  A [t.Type] is its name and its
    [decode]; a failed decode is a list of [ValidationError]s, which
    [PathReporter.report] turns into one message each. *)
Variable ValidationError : Type.
Variable getMessage : ValidationError -> string.

Record Type_ : Type := mkType {
  name : string;
  decode : value -> list ValidationError + value
}.

Definition PathReporter_report (e : list ValidationError + value) : list string :=
  match e with
  | inl errors => map getMessage errors
  | inr _ => ["No errors!"]
  end.

Definition call_decode (type : Type_) (data : value)
  : M (list ValidationError + value) :=
  ([EvDecode (name type) data], Normal (decode type data)).

(** The string built inside [getOrElseL] (lines 62-71). *)
Definition pathsStr (paths : list string) : string :=
  if Nat.leb (List.length paths) NUM_ERRORS then
    let joinedPaths := join LF paths in
    joinedPaths
  else
    let firstErrors :=
      "First " ++ Number_toString NUM_ERRORS ++ ": "
      ++ join LF (slice paths 0 (Z.of_nat NUM_ERRORS)) in
    Number_toString (List.length paths) ++ " errors. " ++ firstErrors.

Definition validate (data : value) (type : Type_) (onError : OnError) : M value :=
  decodedE <- call_decode type data ;;
  match decodedE with
  | inr a => ret a
  | inl _ =>
      let paths := PathReporter_report decodedE in
      call_onError onError (DataValidationError (pathsStr paths))
  end.

End Validation.

Arguments name {ValidationError} _.
Arguments decode {ValidationError} _ _.
Arguments PathReporter_report {ValidationError} getMessage e.
Arguments validate {ValidationError} getMessage data type onError.

(** ** SocketValidate and RestValidate *)

Section Validators.

Variable ValidationError : Type.
Variable getMessage : ValidationError -> string.

(** [JSON.parse] belongs to the engine: [None] stands for the SyntaxError it
    throws on text that is not JSON. *)
Variable JSON_parse : string -> option value.

Local Abbreviation Type_ := (Type_ ValidationError).
Local Abbreviation validate := (validate getMessage).

Definition call_JSON_parse (text : string) : M value :=
  match JSON_parse text with
  | Some json => ret json
  | None => raise SyntaxError
  end.

Definition no_UUID_snapshot (msgStr : string) : string :=
  "Message " ++ msgStr ++ " has no UUID".
Definition no_snapshot_field (msgStr : string) : string :=
  "Message " ++ msgStr ++ " has no 'snapshot' field!".
Definition snapshot_not_array (msgStr : string) : string :=
  "Snapshot in message " ++ msgStr ++ " is not an array!".
Definition no_UUID_data (msgStr : string) : string :=
  "Message " ++ msgStr ++ " has no UUID!".
Definition no_data_field (msgStr : string) : string :=
  "Message " ++ msgStr ++ " has no 'data' field!".

(** SocketValidate.snapshot *)
Definition snapshot (msg : string) (type : Type_) (onError : OnError) : M value :=
  let msgStr := msg in
  json <- call_JSON_parse msgStr ;;
  (* const { uuid, snapshot } = json *)
  uuid <- lift (get json "uuid") ;;
  snapshot <- lift (get json "snapshot") ;;
  if negb (truthy uuid) then
    call_onError onError (VStr (no_UUID_snapshot msgStr))
  else if negb (truthy snapshot) then
    call_onError onError (VStr (no_snapshot_field msgStr))
  else if negb (Array_isArray snapshot) then
    call_onError onError (VStr (snapshot_not_array msgStr))
  else
    decoded <- validate snapshot type onError ;;
    ret (VObj [("uuid", uuid); ("snapshot", decoded)]).

(** SocketValidate.data; the [Array.isArray(data)] block at its start only
    writes diagnostics. *)
Definition data (msg : string) (type : Type_) (onError : OnError) : M value :=
  let msgStr := msg in
  json <- call_JSON_parse msgStr ;;
  (* const { uuid, data } = json *)
  uuid <- lift (get json "uuid") ;;
  data <- lift (get json "data") ;;
  if negb (truthy uuid) then
    call_onError onError (VStr (no_UUID_data msgStr))
  else if negb (truthy data) then
    call_onError onError (VStr (no_data_field msgStr))
  else
    decoded <- validate data type onError ;;
    ret (VObj [("uuid", uuid); ("data", decoded)]).

(** RestValidate.data: the hook rethrows what it is given. *)
Definition rethrow : OnError := fun err => Throw (Raised err).

Definition RestValidate_data (data : value) (type : Type_) : M value :=
  validate data type rethrow.

End Validators.

Arguments snapshot {ValidationError} getMessage JSON_parse msg type onError.
Arguments data {ValidationError} getMessage JSON_parse msg type onError.
Arguments RestValidate_data {ValidationError} getMessage data type.

(** ** MessageTypes: the structural predicates *)

Module MessageTypes.

Definition PAYMENT_RECEIVED : string := "payment received".
Definition UNSUBSCRIBED : string := "unsubscribed".

Definition cbind {A B} (c : completion A) (f : A -> completion B) : completion B :=
  match c with
  | Normal a => f a
  | Throw e => Throw e
  end.

Notation "'let!' x ':=' c 'in' k" := (cbind c (fun x => k))
  (at level 10, x name, c at level 100, k at level 200).

Definition typeof_is (v : value) (t : string) : value :=
  VBool (String.eqb (typeof v) t).

(** Whether a property read throws depends on [msg] alone, so the reads of
    a conjunction are done first and the operands combined with [&&]. *)

Definition hasUuid (msg : value) : completion value :=
  let! uuid := get msg "uuid" in
  Normal (typeof_is uuid "string").

Definition isSnapshot (msg : value) : completion value :=
  let! snapshot := get msg "snapshot" in
  let! uuid := get msg "uuid" in
  Normal (js_and (js_and snapshot (VBool (Array_isArray snapshot)))
                 (typeof_is uuid "string")).

Definition isInvoice (msg : value) : completion value :=
  let! invoice := get msg "invoice" in
  Normal (typeof_is invoice "string").

Definition isInitMsg (msg : value) : completion value :=
  let! ln_uri := get msg "ln_uri" in
  Normal (typeof_is ln_uri "string").

Definition hasDataAndUuid (msg : value) : completion value :=
  let! data := get msg "data" in
  let! has := hasUuid msg in
  Normal (js_and (VBool (Array_isArray data)) has).

Definition isPaymentReceived (msg : value) : completion value :=
  let! uuid := get msg "uuid" in
  let! exchange := get msg "exchange" in
  let! duration := get msg "duration" in
  let! event := get msg "event" in
  let! symbol := get msg "symbol" in
  Normal (js_and (js_and (js_and (js_and
            (typeof_is uuid "string")
            (typeof_is exchange "string"))
            (typeof_is duration "number"))
            (VBool (strict_eq_string event PAYMENT_RECEIVED)))
            (typeof_is symbol "string")).

Definition isUnubscribed (msg : value) : completion value :=
  let! uuid := get msg "uuid" in
  let! event := get msg "event" in
  let! amountRefunded := get msg "amountRefunded" in
  Normal (js_and (js_and
            (typeof_is uuid "string")
            (VBool (strict_eq_string event UNSUBSCRIBED)))
            (typeof_is amountRefunded "number")).

(** [v !== undefined] *)
Definition strict_neq_undefined (v : value) : bool :=
  match v with VUndefined => false | _ => true end.

(** isTimeWarning reads [msg.warnings.duration] only when the two operands
    before it are true, and that read throws when [warnings] is null. *)
Definition isTimeWarning (msg : value) : completion value :=
  let! uuid := get msg "uuid" in
  if negb (truthy (typeof_is uuid "string")) then Normal (typeof_is uuid "string")
  else
    let! warnings := get msg "warnings" in
    if negb (strict_neq_undefined warnings)
    then Normal (VBool (strict_neq_undefined warnings))
    else
      let! duration := get warnings "duration" in
      Normal (typeof_is duration "number").

Section Families.

Variable ValidationError : Type.

(** ALL_PPC_DATA_RESPONSE_TYPES and ALL_EXCHANGE_DATA_RESPONSE_TYPES are
    built from modules outside this file; the code only asks whether they
    include a given schema. *)
Variable ALL_PPC_DATA_RESPONSE_TYPES_includes : Type_ ValidationError -> bool.
Variable ALL_EXCHANGE_DATA_RESPONSE_TYPES_includes : Type_ ValidationError -> bool.

(** [msg && ...includes(type)]: nothing of a falsy [msg] is read. *)
Definition isPpcDataResponse (msg : value) (type : Type_ ValidationError)
  : completion value :=
  if truthy msg
  then Normal (VBool (ALL_PPC_DATA_RESPONSE_TYPES_includes type))
  else Normal msg.

(** [msg && msg.data && ...includes(type)] *)
Definition isExchangeDataResponse (msg : value) (type : Type_ ValidationError)
  : completion value :=
  if truthy msg then
    let! data := get msg "data" in
    Normal (js_and data (VBool (ALL_EXCHANGE_DATA_RESPONSE_TYPES_includes type)))
  else Normal msg.

End Families.

Arguments isPpcDataResponse {ValidationError} _ msg type.
Arguments isExchangeDataResponse {ValidationError} _ msg type.

End MessageTypes.

(** ** A reader for JSON text

    An executable instance of [JSON.parse] on which the validators can be run:
    objects, arrays, strings with the one-character escapes, integers and the
    three literals.  Text with a fraction, an exponent or a [\u] escape is
    outside what it reads.  A repeated key keeps its first position and its
    last value, as in JavaScript. *)

Module JsonReader.

Local Open Scope char_scope.

Definition dquote : ascii := ascii_of_nat 34.

Definition is_ws (c : ascii) : bool :=
  Ascii.eqb c " " || Ascii.eqb c (ascii_of_nat 9)
  || Ascii.eqb c (ascii_of_nat 10) || Ascii.eqb c (ascii_of_nat 13).

Definition is_digit (c : ascii) : bool :=
  Nat.leb 48 (nat_of_ascii c) && Nat.leb (nat_of_ascii c) 57.

Fixpoint skip_ws (s : string) : string :=
  match s with
  | String c r => if is_ws c then skip_ws r else s
  | EmptyString => s
  end.

Fixpoint read_digits (s : string) (acc : Z) : Z * string :=
  match s with
  | String c r =>
      if is_digit c
      then read_digits r (10 * acc + Z.of_nat (nat_of_ascii c - 48))%Z
      else (acc, s)
  | EmptyString => (acc, s)
  end.

Definition starts_fraction (s : string) : bool :=
  match s with
  | String c _ => Ascii.eqb c "." || Ascii.eqb c "e" || Ascii.eqb c "E"
  | EmptyString => false
  end.

(** int = "0" | digit1-9 digit* *)
Definition read_nat (s : string) : option (Z * string) :=
  match s with
  | String c r =>
      if Ascii.eqb c "0" then
        match r with
        | String d _ => if is_digit d then None else Some (0%Z, r)
        | EmptyString => Some (0%Z, r)
        end
      else if is_digit c then Some (read_digits s 0%Z)
      else None
  | EmptyString => None
  end.

Definition read_number (s : string) : option (value * string) :=
  let signed :=
    match s with
    | String c r =>
        if Ascii.eqb c "-"
        then option_map (fun '(n, r') => (Z.opp n, r')) (read_nat r)
        else read_nat s
    | EmptyString => None
    end in
  match signed with
  | Some (n, r) => if starts_fraction r then None else Some (VNum n, r)
  | None => None
  end.

Definition unescape (c : ascii) : option ascii :=
  if Ascii.eqb c dquote then Some dquote
  else if Ascii.eqb c "\" then Some "\"
  else if Ascii.eqb c "/" then Some "/"
  else if Ascii.eqb c "b" then Some (ascii_of_nat 8)
  else if Ascii.eqb c "f" then Some (ascii_of_nat 12)
  else if Ascii.eqb c "n" then Some (ascii_of_nat 10)
  else if Ascii.eqb c "r" then Some (ascii_of_nat 13)
  else if Ascii.eqb c "t" then Some (ascii_of_nat 9)
  else None.

(** The characters after an opening quote, up to the closing one. *)
Fixpoint read_string (s : string) : option (string * string) :=
  match s with
  | EmptyString => None
  | String c r =>
      if Ascii.eqb c dquote then Some (EmptyString, r)
      else if Nat.ltb (nat_of_ascii c) 32 then None
      else if Ascii.eqb c "\" then
        match r with
        | String e r' =>
            match unescape e, read_string r' with
            | Some c', Some (str, rest) => Some (String c' str, rest)
            | _, _ => None
            end
        | EmptyString => None
        end
      else
        match read_string r with
        | Some (str, rest) => Some (String c str, rest)
        | None => None
        end
  end.

Fixpoint set_prop (k : string) (v : value) (props : list (string * value))
  : list (string * value) :=
  match props with
  | [] => [(k, v)]
  | (k', v') :: rest =>
      if String.eqb k' k then (k', v) :: rest else (k', v') :: set_prop k v rest
  end.

Definition read_literal (lit : string) (v : value) (s : string)
  : option (value * string) :=
  if String.prefix lit s
  then Some (v, String.substring (String.length lit)
                                 (String.length s - String.length lit) s)
  else None.

Fixpoint read_value (fuel : nat) (s : string) {struct fuel}
  : option (value * string) :=
  match fuel with
  | O => None
  | S fuel' =>
      match skip_ws s with
      | EmptyString => None
      | String c r =>
          if Ascii.eqb c "n" then read_literal "null" VNull (String c r)
          else if Ascii.eqb c "t" then read_literal "true" (VBool true) (String c r)
          else if Ascii.eqb c "f" then read_literal "false" (VBool false) (String c r)
          else if Ascii.eqb c dquote then
            option_map (fun '(str, rest) => (VStr str, rest)) (read_string r)
          else if Ascii.eqb c "[" then
            match skip_ws r with
            | String d r' =>
                if Ascii.eqb d "]" then Some (VArr [], r')
                else read_elements fuel' r []
            | EmptyString => None
            end
          else if Ascii.eqb c "{" then
            match skip_ws r with
            | String d r' =>
                if Ascii.eqb d "}" then Some (VObj [], r')
                else read_members fuel' r []
            | EmptyString => None
            end
          else read_number (String c r)
      end
  end
with read_elements (fuel : nat) (s : string) (acc : list value) {struct fuel}
  : option (value * string) :=
  match fuel with
  | O => None
  | S fuel' =>
      match read_value fuel' s with
      | Some (v, r) =>
          match skip_ws r with
          | String d r' =>
              if Ascii.eqb d "," then read_elements fuel' r' (acc ++ [v])
              else if Ascii.eqb d "]" then Some (VArr (acc ++ [v]), r')
              else None
          | EmptyString => None
          end
      | None => None
      end
  end
with read_members (fuel : nat) (s : string) (acc : list (string * value))
  {struct fuel} : option (value * string) :=
  match fuel with
  | O => None
  | S fuel' =>
      match skip_ws s with
      | String q r =>
          if Ascii.eqb q dquote then
            match read_string r with
            | Some (k, r1) =>
                match skip_ws r1 with
                | String colon r2 =>
                    if Ascii.eqb colon ":" then
                      match read_value fuel' r2 with
                      | Some (v, r3) =>
                          match skip_ws r3 with
                          | String d r4 =>
                              if Ascii.eqb d ","
                              then read_members fuel' r4 (set_prop k v acc)
                              else if Ascii.eqb d "}"
                              then Some (VObj (set_prop k v acc), r4)
                              else None
                          | EmptyString => None
                          end
                      | None => None
                      end
                    else None
                | EmptyString => None
                end
            | None => None
            end
          else None
      | EmptyString => None
      end
  end.

Definition read_json (text : string) : option value :=
  match read_value (2 * String.length text + 2) text with
  | Some (v, rest) =>
      match skip_ws rest with
      | EmptyString => Some v
      | String _ _ => None
      end
  | None => None
  end.

End JsonReader.

(** ** The frames and messages the specification names *)

Module Frames.

(** A JSON string literal: the text between two double quotes. *)
Definition q (s : string) : string :=
  String JsonReader.dquote (s ++ String JsonReader.dquote EmptyString).

(** {"uuid":"abc","data":[]} *)
Definition empty_data : string :=
  "{" ++ q "uuid" ++ ":" ++ q "abc" ++ "," ++ q "data" ++ ":[]}".

(** {"snapshot":[1,2]} *)
Definition snapshot_without_uuid : string :=
  "{" ++ q "snapshot" ++ ":[1,2]}".

(** {not json *)
Definition not_json : string := "{not json".

(** An envelope whose uuid is the empty string, with both payload fields
    holding the array [1]. *)
Definition empty_uuid : string :=
  "{" ++ q "uuid" ++ ":" ++ q EmptyString ++ "," ++ q "snapshot" ++ ":[1],"
      ++ q "data" ++ ":[1]}".

(** {"uuid":"abc","snapshot":[1,2],"data":[1,2]} *)
Definition full : string :=
  "{" ++ q "uuid" ++ ":" ++ q "abc" ++ "," ++ q "snapshot" ++ ":[1,2],"
      ++ q "data" ++ ":[1,2]}".

(** {"uuid":"abc","data":{"bid":1}} *)
Definition object_data : string :=
  "{" ++ q "uuid" ++ ":" ++ q "abc" ++ "," ++ q "data" ++ ":{"
      ++ q "bid" ++ ":1}}".

(** {"uuid":"x","event":"unsubscribed","amountRefunded":5} *)
Definition unsubscribed : string :=
  "{" ++ q "uuid" ++ ":" ++ q "x" ++ "," ++ q "event" ++ ":"
      ++ q "unsubscribed" ++ "," ++ q "amountRefunded" ++ ":5}".

(** {"uuid":"abc","snapshot":{"bid":1}} *)
Definition object_snapshot : string :=
  "{" ++ q "uuid" ++ ":" ++ q "abc" ++ "," ++ q "snapshot" ++ ":{"
      ++ q "bid" ++ ":1}}".

(** {"uuid":"abc","data":0} *)
Definition zero_data : string :=
  "{" ++ q "uuid" ++ ":" ++ q "abc" ++ "," ++ q "data" ++ ":0}".

(** {"uuid":7,"snapshot":[1,2],"data":[1,2]} *)
Definition numeric_uuid : string :=
  "{" ++ q "uuid" ++ ":7," ++ q "snapshot" ++ ":[1,2]," ++ q "data" ++ ":[1,2]}".

End Frames.

(** ** Example schemas

    Two instances of [Type_] in the manner of [t.array(t.number)] and
    [t.array(t.string)], with one error per offending element; the text of a
    message is the path only. *)

Module Schemas.

Definition elem_error (typeName elemName : string) (i : nat) : string :=
  "Invalid value supplied to : " ++ typeName ++ "/" ++ Number_toString i
    ++ ": " ++ elemName.

Fixpoint elem_errors (ok : value -> bool) (typeName elemName : string)
  (i : nat) (elems : list value) : list string :=
  match elems with
  | [] => []
  | v :: rest =>
      (if ok v then [] else [elem_error typeName elemName i])
        ++ elem_errors ok typeName elemName (S i) rest
  end.

Definition array_of (ok : value -> bool) (typeName elemName : string)
  : Type_ string :=
  mkType string typeName
    (fun v =>
       match v with
       | VArr elems =>
           match elem_errors ok typeName elemName 0 elems with
           | [] => inr v
           | errors => inl errors
           end
       | _ => inl ["Invalid value supplied to : " ++ typeName]
       end).

Definition is_number (v : value) : bool :=
  match v with VNum _ => true | _ => false end.
Definition is_string (v : value) : bool :=
  match v with VStr _ => true | _ => false end.

Definition numbers : Type_ string := array_of is_number "Array<number>" "number".
Definition strings : Type_ string := array_of is_string "Array<string>" "string".

Definition getMessage (e : string) : string := e.

(** Hooks: one that substitutes null, one that substitutes a marker, one
    that raises. *)
Definition lenient : OnError := fun _ => Normal VNull.
Definition fallback : OnError := fun _ => Normal (VStr "fallback").
Definition strict : OnError := fun err => Throw (Raised err).

(** In the manner of [t.any]. *)
Definition any : Type_ string := mkType string "any" (fun v => inr v).

End Schemas.

(** ** Vocabulary of the properties *)

(** A text mentions a phrase when the phrase occurs in it. *)
Definition mentions (phrase text : string) : Prop :=
  exists before after, text = before ++ phrase ++ after.

(** The error object built from a failed decode. *)
Definition decode_error {ValidationError : Type}
  (getMessage : ValidationError -> string) (errors : list ValidationError)
  : value :=
  DataValidationError (pathsStr (map getMessage errors)).

(** The envelope of a frame: what the two destructured fields hold. *)
Definition envelope (JSON_parse : string -> option value)
  (frame field : string) (uuid payload : value) : Prop :=
  exists json,
    JSON_parse frame = Some json
    /\ get json "uuid" = Normal uuid
    /\ get json field = Normal payload.

(** The shapes a run of either validator can have: what was called, in
    order, and how the call completed. *)
Inductive run_kind (onError : OnError) : M value -> Prop :=
| run_syntax_error :
    run_kind onError ([], Throw SyntaxError)
| run_type_error :
    run_kind onError ([], Throw TypeError)
| run_envelope_error (m : string) :
    run_kind onError ([EvOnError (VStr m)], onError (VStr m))
| run_decoded (n : string) (d r : value) :
    run_kind onError ([EvDecode n d], Normal r)
| run_rejected (n : string) (d err : value) (wrap : value -> value) :
    run_kind onError
      ([EvDecode n d; EvOnError err],
       match onError err with
       | Normal v => Normal (wrap v)
       | Throw e => Throw e
       end).

Definition is_hook_call (ev : event) : bool :=
  match ev with EvOnError _ => true | EvDecode _ _ => false end.

Definition decoder_invoked_on {A : Type} (m : M A) (payload : value) : Prop :=
  exists n, In (EvDecode n payload) (trace m).

Definition decoder_reached {A : Type} (m : M A) : Prop :=
  exists payload, decoder_invoked_on m payload.

Definition onError_invoked {A : Type} (m : M A) : Prop :=
  exists err, In (EvOnError err) (trace m).

(** The envelope carries a correlation identifier and an array under
    [field]. *)
Definition envelope_with_array (JSON_parse : string -> option value)
  (frame field : string) (payload : value) : Prop :=
  exists uuid,
    envelope JSON_parse frame field uuid payload
    /\ truthy uuid = true /\ Array_isArray payload = true.

(** The envelope carries a correlation identifier and something truthy under
    [field]. *)
Definition envelope_with_payload (JSON_parse : string -> option value)
  (frame field : string) (payload : value) : Prop :=
  exists uuid,
    envelope JSON_parse frame field uuid payload
    /\ truthy uuid = true /\ truthy payload = true.

(** The test the payload field must pass before it is decoded. *)
Definition snapshot_passes (payload : value) : bool :=
  truthy payload && Array_isArray payload.
Definition data_passes (payload : value) : bool := truthy payload.

(** Everything one run of a validator can be, by the field it reads and the
    test that field must pass. *)
Inductive run_of {ValidationError : Type}
  (getMessage : ValidationError -> string)
  (JSON_parse : string -> option value) (type : Type_ ValidationError)
  (onError : OnError) (frame field : string) (passes : value -> bool)
  : M value -> Prop :=
| ran_not_json :
    JSON_parse frame = None ->
    run_of getMessage JSON_parse type onError frame field passes
      ([], Throw SyntaxError)
| ran_not_object (json : value) :
    JSON_parse frame = Some json ->
    json = VNull \/ json = VUndefined ->
    run_of getMessage JSON_parse type onError frame field passes
      ([], Throw TypeError)
| ran_malformed (uuid payload : value) (m : string) :
    envelope JSON_parse frame field uuid payload ->
    truthy uuid && passes payload = false ->
    mentions frame m ->
    run_of getMessage JSON_parse type onError frame field passes
      ([EvOnError (VStr m)], onError (VStr m))
| ran_decoded (uuid payload decoded : value) :
    envelope JSON_parse frame field uuid payload ->
    truthy uuid = true -> passes payload = true ->
    decode type payload = inr decoded ->
    run_of getMessage JSON_parse type onError frame field passes
      ([EvDecode (name type) payload],
       Normal (VObj [("uuid", uuid); (field, decoded)]))
| ran_rejected (uuid payload : value) (errors : list ValidationError) :
    envelope JSON_parse frame field uuid payload ->
    truthy uuid = true -> passes payload = true ->
    decode type payload = inl errors ->
    run_of getMessage JSON_parse type onError frame field passes
      ([EvDecode (name type) payload;
        EvOnError (decode_error getMessage errors)],
       match onError (decode_error getMessage errors) with
       | Normal v => Normal (VObj [("uuid", uuid); (field, v)])
       | Throw e => Throw e
       end).

(** [m] is the run of one of the two validators on [frame]; [field] is the
    payload field that validator reads. *)
Definition validator_run {ValidationError : Type}
  (getMessage : ValidationError -> string)
  (JSON_parse : string -> option value) (type : Type_ ValidationError)
  (onError : OnError) (frame field : string) (m : M value) : Prop :=
  (field = "snapshot" /\ m = snapshot getMessage JSON_parse frame type onError)
  \/ (field = "data" /\ m = data getMessage JSON_parse frame type onError).

Definition is_decode_call (ev : event) : bool :=
  match ev with EvDecode _ _ => true | EvOnError _ => false end.

(** A payment-received message and a time warning. *)
Definition payment_message : value :=
  VObj [("uuid", VStr "x"); ("exchange", VStr "binance");
        ("symbol", VStr "BTCUSD"); ("duration", VNum 60);
        ("event", VStr "payment received")].

Definition time_warning_message : value :=
  VObj [("uuid", VStr "x"); ("warnings", VObj [("duration", VNum 30)])].

(** Values used to run the code. *)

(** Six strings where numbers are expected: six messages, of which the
    summary keeps five. *)
Definition six_strings : value :=
  VArr [VStr "a"; VStr "b"; VStr "c"; VStr "d"; VStr "e"; VStr "f"].

Definition six_errors : list string :=
  map (Schemas.elem_error "Array<number>" "number") [0; 1; 2; 3; 4; 5].

(** Two numbers where strings are expected. *)
Definition two_number_errors : value :=
  DataValidationError
    (Schemas.elem_error "Array<string>" "string" 0 ++ LF
       ++ Schemas.elem_error "Array<string>" "string" 1).

Definition unsubscribed_message : value :=
  VObj [("uuid", VStr "x"); ("event", VStr "unsubscribed");
        ("amountRefunded", VNum 5)].

(** A hook that substitutes null for an envelope error and raises a decode
    error. *)
Definition lenient_on_envelope : OnError :=
  fun err => match err with VStr _ => Normal VNull | _ => Throw (Raised err) end.

(** * Properties *)

(** ** Lists and strings *)

Lemma slice_prefix {A : Type} (l : list A) (n : nat) :
  slice l 0 (Z.of_nat n) = firstn n l.
Proof.
  unfold slice, clamp_index. simpl.
  rewrite (Z.min_l 0) by lia.
  destruct (Z.ltb_spec (Z.of_nat n) 0) as [Hneg | _]; [lia |].
  rewrite Z.sub_0_r. simpl.
  destruct (Nat.le_gt_cases n (List.length l)) as [Hle | Hgt].
  - rewrite Z.min_l by lia. rewrite Z.max_l by lia.
    now rewrite Nat2Z.id.
  - rewrite Z.min_r by lia. rewrite Z.max_l by lia.
    rewrite Nat2Z.id. rewrite !firstn_all2; auto; lia.
Qed.

Lemma pathsStr_short (paths : list string) :
  List.length paths <= NUM_ERRORS -> pathsStr paths = join LF paths.
Proof.
  intros H. unfold pathsStr.
  now rewrite (proj2 (Nat.leb_le _ _) H).
Qed.

Lemma pathsStr_long (paths : list string) :
  NUM_ERRORS < List.length paths ->
  pathsStr paths =
    Number_toString (List.length paths) ++ " errors. First 5: "
      ++ join LF (firstn 5 paths).
Proof.
  intros H. unfold pathsStr.
  rewrite (proj2 (Nat.leb_gt _ _) H).
  now rewrite slice_prefix.
Qed.

Lemma append_assoc (a b c : string) : (a ++ b) ++ c = a ++ b ++ c.
Proof. induction a; simpl; congruence. Qed.

(** ** One run of [validate] *)

Section ValidateFacts.

Variable ValidationError : Type.
Variable getMessage : ValidationError -> string.

Lemma validate_ok (data : value) (type : Type_ ValidationError) (onError : OnError) (a : value) :
  decode type data = inr a ->
  validate getMessage data type onError = ([EvDecode (name type) data], Normal a).
Proof.
  intros H. unfold validate, call_decode, bind. now rewrite H.
Qed.

Lemma validate_failed (data : value) (type : Type_ ValidationError) (onError : OnError)
  (errors : list ValidationError) :
  decode type data = inl errors ->
  validate getMessage data type onError =
    ([EvDecode (name type) data; EvOnError (decode_error getMessage errors)],
     onError (decode_error getMessage errors)).
Proof.
  intros H. unfold validate, call_decode, bind. now rewrite H.
Qed.

End ValidateFacts.

(** ** Runs of the envelope validators *)

Lemma get_pair (json : value) (k1 k2 : string) :
  (get json k1 = Throw TypeError /\ get json k2 = Throw TypeError)
  \/ (exists v1 v2, get json k1 = Normal v1 /\ get json k2 = Normal v2).
Proof.
  destruct json; simpl; eauto.
Qed.

Lemma get_defined (json : value) (k1 k2 : string) (v1 : value) :
  get json k1 = Normal v1 -> exists v2, get json k2 = Normal v2.
Proof.
  destruct json; simpl; intros H; try discriminate; eauto.
Qed.

Section ValidatorFacts.

Variable ValidationError : Type.
Variable getMessage : ValidationError -> string.
Variable JSON_parse : string -> option value.

Variable type : Type_ ValidationError.
Variable onError : OnError.

Lemma snapshot_unfold (frame : string) (uuid snap : value) :
  envelope JSON_parse frame "snapshot" uuid snap ->
  snapshot getMessage JSON_parse frame type onError =
    if negb (truthy uuid) then
      call_onError onError (VStr (no_UUID_snapshot frame))
    else if negb (truthy snap) then
      call_onError onError (VStr (no_snapshot_field frame))
    else if negb (Array_isArray snap) then
      call_onError onError (VStr (snapshot_not_array frame))
    else
      bind (validate getMessage snap type onError)
           (fun decoded => ret (VObj [("uuid", uuid); ("snapshot", decoded)])).
Proof.
  intros (json & Hp & Hu & Hs).
  unfold snapshot, call_JSON_parse.
  rewrite Hp. cbn [bind ret]. rewrite Hu. cbn [bind lift]. rewrite Hs.
  cbn [bind lift app].
  repeat match goal with |- context [if ?b then _ else _] =>
    destruct b; [destruct (call_onError _ _); reflexivity |] end.
  destruct (validate _ _ _ _) as [tr [a | e]]; reflexivity.
Qed.

Lemma data_unfold (frame : string) (uuid dat : value) :
  envelope JSON_parse frame "data" uuid dat ->
  data getMessage JSON_parse frame type onError =
    if negb (truthy uuid) then
      call_onError onError (VStr (no_UUID_data frame))
    else if negb (truthy dat) then
      call_onError onError (VStr (no_data_field frame))
    else
      bind (validate getMessage dat type onError)
           (fun decoded => ret (VObj [("uuid", uuid); ("data", decoded)])).
Proof.
  intros (json & Hp & Hu & Hs).
  unfold data, call_JSON_parse.
  rewrite Hp. cbn [bind ret]. rewrite Hu. cbn [bind lift]. rewrite Hs.
  cbn [bind lift app].
  repeat match goal with |- context [if ?b then _ else _] =>
    destruct b; [destruct (call_onError _ _); reflexivity |] end.
  destruct (validate _ _ _ _) as [tr [a | e]]; reflexivity.
Qed.

(** A frame either is not JSON, or is the text of null, or has an
    envelope. *)
Lemma frame_cases (frame field : string) :
  JSON_parse frame = None
  \/ (exists json, JSON_parse frame = Some json
                   /\ get json "uuid" = Throw TypeError)
  \/ (exists uuid payload, envelope JSON_parse frame field uuid payload).
Proof.
  destruct (JSON_parse frame) as [json |] eqn:Hp; [| now left].
  right. destruct (get_pair json "uuid" field) as [[Hu _] | (u & p & Hu & Hf)].
  - left. eauto.
  - right. exists u, p, json. auto.
Qed.

Lemma snapshot_not_json (frame : string) :
  JSON_parse frame = None -> snapshot getMessage JSON_parse frame type onError = ([], Throw SyntaxError).
Proof.
  intros H. unfold snapshot, call_JSON_parse.
  now rewrite H.
Qed.

Lemma data_not_json (frame : string) :
  JSON_parse frame = None -> data getMessage JSON_parse frame type onError = ([], Throw SyntaxError).
Proof.
  intros H. unfold data, call_JSON_parse.
  now rewrite H.
Qed.

Lemma snapshot_no_object (frame : string) (json : value) :
  JSON_parse frame = Some json -> get json "uuid" = Throw TypeError ->
  snapshot getMessage JSON_parse frame type onError = ([], Throw TypeError).
Proof.
  intros Hp Hu. unfold snapshot, call_JSON_parse.
  rewrite Hp. cbn [bind ret]. now rewrite Hu.
Qed.

Lemma data_no_object (frame : string) (json : value) :
  JSON_parse frame = Some json -> get json "uuid" = Throw TypeError ->
  data getMessage JSON_parse frame type onError = ([], Throw TypeError).
Proof.
  intros Hp Hu. unfold data, call_JSON_parse.
  rewrite Hp. cbn [bind ret]. now rewrite Hu.
Qed.

Lemma validate_wrapped_kind (payload : value) (wrap : value -> value) :
  run_kind onError (bind (validate getMessage payload type onError)
                         (fun decoded => ret (wrap decoded))).
Proof.
  destruct (decode type payload) as [errors | a] eqn:Hd.
  - rewrite (validate_failed _ getMessage _ _ onError _ Hd). unfold bind, ret.
    pose proof (run_rejected onError (name type) payload
                  (decode_error getMessage errors) wrap) as H.
    destruct (onError (decode_error getMessage errors)); exact H.
  - rewrite (validate_ok _ getMessage _ _ onError _ Hd). apply run_decoded.
Qed.

Lemma snapshot_run_kind (frame : string) :
  run_kind onError (snapshot getMessage JSON_parse frame type onError).
Proof.
  destruct (frame_cases frame "snapshot")
    as [Hn | [(json & Hp & Hu) | (uuid & snap & He)]].
  - rewrite (snapshot_not_json frame Hn). constructor.
  - rewrite (snapshot_no_object _ _ Hp Hu). constructor.
  - rewrite (snapshot_unfold _ _ _ He).
    repeat match goal with |- context [if ?b then _ else _] =>
      destruct b; [apply run_envelope_error |] end.
    apply validate_wrapped_kind.
Qed.

Lemma data_run_kind (frame : string) :
  run_kind onError (data getMessage JSON_parse frame type onError).
Proof.
  destruct (frame_cases frame "data")
    as [Hn | [(json & Hp & Hu) | (uuid & dat & He)]].
  - rewrite (data_not_json frame Hn). constructor.
  - rewrite (data_no_object _ _ Hp Hu). constructor.
  - rewrite (data_unfold _ _ _ He).
    repeat match goal with |- context [if ?b then _ else _] =>
      destruct b; [apply run_envelope_error |] end.
    apply validate_wrapped_kind.
Qed.

End ValidatorFacts.

Lemma run_kind_hook_raises (onError : OnError) (m : M value) (arg : value)
  (e : thrown) :
  run_kind onError m -> onError arg = Throw e ->
  In (EvOnError arg) (trace m) -> outcome m = Throw e.
Proof.
  intros Hk He Hin. destruct Hk; simpl in *.
  - contradiction.
  - contradiction.
  - destruct Hin as [Heq | []]. injection Heq as Heq. now rewrite Heq.
  - destruct Hin as [Heq | []]. discriminate.
  - destruct Hin as [Heq | [Heq | []]]; [discriminate |].
    injection Heq as Heq. subst err. now rewrite He.
Qed.

Lemma run_kind_one_hook_call (onError : OnError) (m : M value) :
  run_kind onError m -> List.length (filter is_hook_call (trace m)) <= 1.
Proof.
  intros Hk. destruct Hk; simpl; lia.
Qed.

Lemma falsy_values (v : value) :
  truthy v = false <->
  v = VUndefined \/ v = VNull \/ v = VBool false \/ v = VNum 0
  \/ v = VStr EmptyString.
Proof.
  split.
  - destruct v as [| | b | n | s | | |]; simpl; intros H; try discriminate; auto.
    + subst b. auto.
    + apply negb_false_iff, Z.eqb_eq in H. subst n. auto 6.
    + apply negb_false_iff, String.eqb_eq in H. subst s. auto 6.
  - intros [-> | [-> | [-> | [-> | ->]]]]; reflexivity.
Qed.

Lemma array_truthy (v : value) : Array_isArray v = true -> truthy v = true.
Proof. destruct v; simpl; congruence. Qed.

Lemma mentions_no_UUID_snapshot (frame : string) :
  mentions "no UUID" (no_UUID_snapshot frame).
Proof.
  exists ("Message " ++ frame ++ " has "), EmptyString.
  unfold no_UUID_snapshot. simpl. f_equal. f_equal. f_equal. f_equal.
  f_equal. f_equal. f_equal. f_equal.
  rewrite append_assoc. reflexivity.
Qed.

Lemma mentions_no_UUID_data (frame : string) :
  mentions "no UUID" (no_UUID_data frame).
Proof.
  exists ("Message " ++ frame ++ " has "), "!".
  unfold no_UUID_data. simpl. f_equal. f_equal. f_equal. f_equal.
  f_equal. f_equal. f_equal. f_equal.
  rewrite append_assoc. reflexivity.
Qed.

Section EnvelopeChecks.

Variable ValidationError : Type.
Variable getMessage : ValidationError -> string.
Variable JSON_parse : string -> option value.
Variable type : Type_ ValidationError.
Variable onError : OnError.

Lemma snapshot_falsy_uuid (frame : string) (json uuid : value) :
  JSON_parse frame = Some json -> get json "uuid" = Normal uuid ->
  truthy uuid = false ->
  snapshot getMessage JSON_parse frame type onError =
    ([EvOnError (VStr (no_UUID_snapshot frame))],
     onError (VStr (no_UUID_snapshot frame))).
Proof.
  intros Hp Hu Hf.
  destruct (get_defined json "uuid" "snapshot" uuid Hu) as [snap Hs].
  rewrite (snapshot_unfold _ getMessage JSON_parse type onError frame uuid snap)
    by (exists json; auto).
  now rewrite Hf.
Qed.

Lemma data_falsy_uuid (frame : string) (json uuid : value) :
  JSON_parse frame = Some json -> get json "uuid" = Normal uuid ->
  truthy uuid = false ->
  data getMessage JSON_parse frame type onError =
    ([EvOnError (VStr (no_UUID_data frame))],
     onError (VStr (no_UUID_data frame))).
Proof.
  intros Hp Hu Hf.
  destruct (get_defined json "uuid" "data" uuid Hu) as [dat Hs].
  rewrite (data_unfold _ getMessage JSON_parse type onError frame uuid dat)
    by (exists json; auto).
  now rewrite Hf.
Qed.

(** When the decoder runs inside [snapshot], it runs on the envelope's
    [snapshot] field, after the three checks. *)
Lemma snapshot_decoder_after_checks (frame : string) (payload : value) :
  decoder_invoked_on (snapshot getMessage JSON_parse frame type onError) payload ->
  envelope_with_array JSON_parse frame "snapshot" payload.
Proof.
  intros [n Hin].
  destruct (frame_cases JSON_parse frame "snapshot")
    as [Hn | [(json & Hp & Hu) | (uuid & snap & He)]].
  - rewrite (snapshot_not_json _ getMessage JSON_parse type onError frame Hn) in Hin.
    destruct Hin.
  - rewrite (snapshot_no_object _ getMessage JSON_parse type onError frame json Hp Hu)
      in Hin.
    destruct Hin.
  - rewrite (snapshot_unfold _ getMessage JSON_parse type onError frame uuid snap He)
      in Hin.
    destruct (truthy uuid) eqn:Tu; simpl in Hin;
      [| destruct Hin as [H | []]; discriminate].
    destruct (truthy snap) eqn:Ts; simpl in Hin;
      [| destruct Hin as [H | []]; discriminate].
    destruct (Array_isArray snap) eqn:Ta; simpl in Hin;
      [| destruct Hin as [H | []]; discriminate].
    assert (payload = snap) as ->.
    { destruct (decode type snap) as [errors | a] eqn:Hd.
      - rewrite (validate_failed _ getMessage _ _ onError _ Hd) in Hin.
        unfold bind, ret in Hin.
        destruct (onError (decode_error getMessage errors)); simpl in Hin.
        + destruct Hin as [H | [H | []]]; congruence.
        + destruct Hin as [H | [H | []]]; congruence.
      - rewrite (validate_ok _ getMessage _ _ onError _ Hd) in Hin.
        simpl in Hin. destruct Hin as [H | []]. congruence. }
    exists uuid. auto.
Qed.

(** When the decoder runs inside [data], it runs on the envelope's [data]
    field, after the two checks. *)
Lemma data_decoder_after_checks (frame : string) (payload : value) :
  decoder_invoked_on (data getMessage JSON_parse frame type onError) payload ->
  envelope_with_payload JSON_parse frame "data" payload.
Proof.
  intros [n Hin].
  destruct (frame_cases JSON_parse frame "data")
    as [Hn | [(json & Hp & Hu) | (uuid & dat & He)]].
  - rewrite (data_not_json _ getMessage JSON_parse type onError frame Hn) in Hin.
    destruct Hin.
  - rewrite (data_no_object _ getMessage JSON_parse type onError frame json Hp Hu)
      in Hin.
    destruct Hin.
  - rewrite (data_unfold _ getMessage JSON_parse type onError frame uuid dat He)
      in Hin.
    destruct (truthy uuid) eqn:Tu; simpl in Hin;
      [| destruct Hin as [H | []]; discriminate].
    destruct (truthy dat) eqn:Ts; simpl in Hin;
      [| destruct Hin as [H | []]; discriminate].
    assert (payload = dat) as ->.
    { destruct (decode type dat) as [errors | a] eqn:Hd.
      - rewrite (validate_failed _ getMessage _ _ onError _ Hd) in Hin.
        unfold bind, ret in Hin.
        destruct (onError (decode_error getMessage errors)); simpl in Hin.
        + destruct Hin as [H | [H | []]]; congruence.
        + destruct Hin as [H | [H | []]]; congruence.
      - rewrite (validate_ok _ getMessage _ _ onError _ Hd) in Hin.
        simpl in Hin. destruct Hin as [H | []]. congruence. }
    exists uuid. auto.
Qed.

End EnvelopeChecks.

(** * The claims of the specification *)

(** ** C1: what has been checked when the decoder runs *)

(** C1, as the specification states it, fails for [data]: the frame
    {"uuid":"abc","data":{"bid":1}} reaches the decoder although its payload
    field is an object, not an array. *)
Lemma data_decodes_object_payload :
  decoder_invoked_on
    (data Schemas.getMessage JsonReader.read_json Frames.object_data
          Schemas.numbers Schemas.lenient)
    (VObj [("bid", VNum 1)])
  /\ ~ (exists payload,
          envelope_with_array JsonReader.read_json Frames.object_data
                              "data" payload).
Proof.
  split.
  - exists "Array<number>". vm_compute. auto.
  - intros (payload & uuid & (json & Hp & _ & Hd) & _ & Ha).
    vm_compute in Hp. injection Hp as <-.
    vm_compute in Hd. injection Hd as <-. discriminate.
Qed.

(** C1 (amended): whenever the decoder is invoked inside
    [SocketValidate.snapshot], the frame parsed to an envelope with a truthy
    uuid whose snapshot field is an array, and the decoder is given that
    array; whenever it is invoked inside [SocketValidate.data], the envelope
    has a truthy uuid and a truthy data field (present, but of any kind), and
    the decoder is given that field. *)
Theorem decoder_runs_on_checked_envelope
  {ValidationError : Type} (getMessage : ValidationError -> string)
  (JSON_parse : string -> option value) (type : Type_ ValidationError)
  (onError : OnError) (frame : string) (payload : value) :
  (decoder_invoked_on (snapshot getMessage JSON_parse frame type onError) payload ->
   envelope_with_array JSON_parse frame "snapshot" payload)
  /\ (decoder_invoked_on (data getMessage JSON_parse frame type onError) payload ->
      envelope_with_payload JSON_parse frame "data" payload).
Proof.
  split.
  - apply snapshot_decoder_after_checks.
  - apply data_decoder_after_checks.
Qed.

Lemma decoder_runs_on_checked_envelope_witness :
  envelope_with_array JsonReader.read_json Frames.full "snapshot"
                      (VArr [VNum 1; VNum 2])
  /\ envelope_with_payload JsonReader.read_json Frames.full "data"
                           (VArr [VNum 1; VNum 2]).
Proof.
  destruct (decoder_runs_on_checked_envelope Schemas.getMessage
              JsonReader.read_json Schemas.numbers Schemas.lenient
              Frames.full (VArr [VNum 1; VNum 2])) as [Hs Hd].
  split.
  - apply Hs. exists "Array<number>". vm_compute. auto.
  - apply Hd. exists "Array<number>". vm_compute. auto.
Defined.

(** ** C2: a frame without uuid *)

(** C2: when the parsed envelope has no uuid field, [SocketValidate.snapshot]
    calls [onError] once, with a message that mentions "no UUID", and
    completes exactly as [onError] does; with a hook that returns null the
    call returns null. *)
Theorem snapshot_without_uuid_returns_hook_result
  {ValidationError : Type} (getMessage : ValidationError -> string)
  (JSON_parse : string -> option value) (type : Type_ ValidationError)
  (onError : OnError) (frame : string) (json : value) :
  JSON_parse frame = Some json ->
  get json "uuid" = Normal VUndefined ->
  exists message,
    mentions "no UUID" message
    /\ snapshot getMessage JSON_parse frame type onError =
         ([EvOnError (VStr message)], onError (VStr message))
    /\ snapshot getMessage JSON_parse frame type (fun _ => Normal VNull) =
         ([EvOnError (VStr message)], Normal VNull).
Proof.
  intros Hp Hu. exists (no_UUID_snapshot frame). split; [| split].
  - apply mentions_no_UUID_snapshot.
  - now apply (snapshot_falsy_uuid _ getMessage JSON_parse type onError frame
                 json VUndefined).
  - now apply (snapshot_falsy_uuid _ getMessage JSON_parse type
                 (fun _ => Normal VNull) frame json VUndefined).
Qed.

Lemma snapshot_without_uuid_returns_hook_result_witness :
  exists message,
    mentions "no UUID" message
    /\ snapshot Schemas.getMessage JsonReader.read_json
         Frames.snapshot_without_uuid Schemas.numbers Schemas.lenient =
         ([EvOnError (VStr message)], Schemas.lenient (VStr message))
    /\ snapshot Schemas.getMessage JsonReader.read_json
         Frames.snapshot_without_uuid Schemas.numbers (fun _ => Normal VNull) =
         ([EvOnError (VStr message)], Normal VNull).
Proof.
  apply (snapshot_without_uuid_returns_hook_result Schemas.getMessage
           JsonReader.read_json Schemas.numbers Schemas.lenient
           Frames.snapshot_without_uuid
           (VObj [("snapshot", VArr [VNum 1; VNum 2])])).
  - vm_compute. reflexivity.
  - reflexivity.
Defined.

(** ** C3: the summary of a failed decode *)

(** C3: when decoding fails with k messages, [validate] hands [onError] a
    DataValidationError whose message is the k messages joined by newlines
    if k <= 5, and otherwise the text "k errors. First 5: " followed by the
    first five messages joined by newlines. *)
Theorem validate_reports_bounded_summary
  {ValidationError : Type} (getMessage : ValidationError -> string)
  (data : value) (type : Type_ ValidationError) (onError : OnError)
  (errors : list ValidationError) :
  decode type data = inl errors ->
  let paths := map getMessage errors in
  let k := List.length paths in
  let summary :=
    if Nat.leb k 5 then join LF paths
    else Number_toString k ++ " errors. First 5: " ++ join LF (firstn 5 paths) in
  validate getMessage data type onError =
    ([EvDecode (name type) data; EvOnError (DataValidationError summary)],
     onError (DataValidationError summary))
  /\ List.length (firstn 5 paths) = Nat.min 5 k.
Proof.
  intros Hd paths k summary. split; [| apply length_firstn].
  rewrite (validate_failed _ getMessage _ _ onError _ Hd).
  unfold decode_error. fold paths.
  assert (pathsStr paths = summary) as ->; [| reflexivity].
  unfold summary, k.
  destruct (Nat.leb_spec (List.length paths) 5) as [Hle | Hgt].
  - now apply pathsStr_short.
  - now apply pathsStr_long.
Qed.

Lemma validate_reports_bounded_summary_witness :
  validate Schemas.getMessage six_strings Schemas.numbers Schemas.lenient =
    ([EvDecode "Array<number>" six_strings;
      EvOnError (DataValidationError
                   ("6 errors. First 5: " ++ join LF (firstn 5 six_errors)))],
     Normal VNull)
  /\ List.length (firstn 5 six_errors) = 5.
Proof.
  apply (validate_reports_bounded_summary Schemas.getMessage six_strings
           Schemas.numbers Schemas.lenient six_errors).
  vm_compute. reflexivity.
Defined.

Example summary_of_two_errors :
  pathsStr ["first"; "second"] = "first" ++ LF ++ "second".
Proof. reflexivity. Qed.

Example summary_of_no_error : pathsStr [] = EmptyString.
Proof. reflexivity. Qed.

Example summary_of_seven_errors :
  pathsStr ["e1"; "e2"; "e3"; "e4"; "e5"; "e6"; "e7"] =
    "7 errors. First 5: e1" ++ LF ++ "e2" ++ LF ++ "e3" ++ LF ++ "e4" ++ LF ++ "e5".
Proof. reflexivity. Qed.

(** ** C4: text that is not JSON *)

(** C4: on a frame that is not JSON, both validators throw the parse failure
    and call neither the decoder nor [onError]. *)
Theorem malformed_json_propagates
  {ValidationError : Type} (getMessage : ValidationError -> string)
  (JSON_parse : string -> option value) (type : Type_ ValidationError)
  (onError : OnError) (frame : string) :
  JSON_parse frame = None ->
  snapshot getMessage JSON_parse frame type onError = ([], Throw SyntaxError)
  /\ data getMessage JSON_parse frame type onError = ([], Throw SyntaxError)
  /\ ~ onError_invoked (snapshot getMessage JSON_parse frame type onError)
  /\ ~ onError_invoked (data getMessage JSON_parse frame type onError).
Proof.
  intros Hn.
  rewrite (snapshot_not_json _ getMessage JSON_parse type onError frame Hn).
  rewrite (data_not_json _ getMessage JSON_parse type onError frame Hn).
  repeat split; intros [err []].
Qed.

Lemma malformed_json_propagates_witness :
  snapshot Schemas.getMessage JsonReader.read_json Frames.not_json
           Schemas.numbers Schemas.lenient = ([], Throw SyntaxError)
  /\ data Schemas.getMessage JsonReader.read_json Frames.not_json
          Schemas.numbers Schemas.lenient = ([], Throw SyntaxError)
  /\ ~ onError_invoked
         (snapshot Schemas.getMessage JsonReader.read_json Frames.not_json
                   Schemas.numbers Schemas.lenient)
  /\ ~ onError_invoked
         (data Schemas.getMessage JsonReader.read_json Frames.not_json
               Schemas.numbers Schemas.lenient).
Proof.
  apply (malformed_json_propagates Schemas.getMessage JsonReader.read_json
           Schemas.numbers Schemas.lenient Frames.not_json).
  vm_compute. reflexivity.
Defined.

(** ** C5: an empty data array *)

(** C5: on the frame {"uuid":"abc","data":[]} and a schema that accepts the
    empty array, [SocketValidate.data] returns the object with uuid "abc" and
    data [], having called the decoder once and [onError] not at all. *)
Theorem data_accepts_empty_array
  {ValidationError : Type} (getMessage : ValidationError -> string)
  (JSON_parse : string -> option value) (type : Type_ ValidationError)
  (onError : OnError) :
  JSON_parse Frames.empty_data
    = Some (VObj [("uuid", VStr "abc"); ("data", VArr [])]) ->
  decode type (VArr []) = inr (VArr []) ->
  data getMessage JSON_parse Frames.empty_data type onError =
    ([EvDecode (name type) (VArr [])],
     Normal (VObj [("uuid", VStr "abc"); ("data", VArr [])]))
  /\ ~ onError_invoked (data getMessage JSON_parse Frames.empty_data type onError).
Proof.
  intros Hp Hd.
  assert (data getMessage JSON_parse Frames.empty_data type onError =
          ([EvDecode (name type) (VArr [])],
           Normal (VObj [("uuid", VStr "abc"); ("data", VArr [])]))) as Hrun.
  { rewrite (data_unfold _ getMessage JSON_parse type onError Frames.empty_data
               (VStr "abc") (VArr [])).
    - simpl. now rewrite (validate_ok _ getMessage _ _ onError _ Hd).
    - eexists. split; [exact Hp | split; reflexivity]. }
  split; [exact Hrun |].
  rewrite Hrun. intros [err [H | []]]. discriminate.
Qed.

Lemma data_accepts_empty_array_witness :
  data Schemas.getMessage JsonReader.read_json Frames.empty_data
       Schemas.numbers Schemas.strict =
    ([EvDecode "Array<number>" (VArr [])],
     Normal (VObj [("uuid", VStr "abc"); ("data", VArr [])]))
  /\ ~ onError_invoked
         (data Schemas.getMessage JsonReader.read_json Frames.empty_data
               Schemas.numbers Schemas.strict).
Proof.
  apply (data_accepts_empty_array Schemas.getMessage JsonReader.read_json
           Schemas.numbers Schemas.strict).
  - vm_compute. reflexivity.
  - reflexivity.
Defined.

(** ** C6: RestValidate.data *)

(** C6: [RestValidate.data] returns the decoded value when decoding
    succeeds, and otherwise throws the DataValidationError whose message is
    the summary of the decode errors; it has no third way to complete. *)
Theorem RestValidate_data_returns_or_throws
  {ValidationError : Type} (getMessage : ValidationError -> string)
  (data : value) (type : Type_ ValidationError) :
  outcome (RestValidate_data getMessage data type) =
    match decode type data with
    | inr decoded => Normal decoded
    | inl errors =>
        Throw (Raised (DataValidationError (pathsStr (map getMessage errors))))
    end.
Proof.
  unfold RestValidate_data.
  destruct (decode type data) as [errors | decoded] eqn:Hd.
  - now rewrite (validate_failed _ getMessage _ _ rethrow _ Hd).
  - now rewrite (validate_ok _ getMessage _ _ rethrow _ Hd).
Qed.

Example RestValidate_data_rejects_six_strings :
  outcome (RestValidate_data Schemas.getMessage six_strings Schemas.numbers) =
    Throw (Raised (DataValidationError
                     ("6 errors. First 5: " ++ join LF (firstn 5 six_errors)))).
Proof. reflexivity. Qed.

Example RestValidate_data_accepts_numbers :
  outcome (RestValidate_data Schemas.getMessage (VArr [VNum 1; VNum 2])
                             Schemas.numbers) =
    Normal (VArr [VNum 1; VNum 2]).
Proof. reflexivity. Qed.

(** ** C7: a hook that raises *)

(** C7: if [onError], called during [SocketValidate.snapshot] or
    [SocketValidate.data] with some argument, throws, then the call throws
    the same thing. *)
Theorem onError_exception_propagates
  {ValidationError : Type} (getMessage : ValidationError -> string)
  (JSON_parse : string -> option value) (type : Type_ ValidationError)
  (onError : OnError) (frame : string) (arg : value) (e : thrown) :
  onError arg = Throw e ->
  (In (EvOnError arg) (trace (snapshot getMessage JSON_parse frame type onError)) ->
   outcome (snapshot getMessage JSON_parse frame type onError) = Throw e)
  /\ (In (EvOnError arg) (trace (data getMessage JSON_parse frame type onError)) ->
      outcome (data getMessage JSON_parse frame type onError) = Throw e).
Proof.
  intros He. split; intros Hin.
  - eapply run_kind_hook_raises; eauto using snapshot_run_kind.
  - eapply run_kind_hook_raises; eauto using data_run_kind.
Qed.

Lemma onError_exception_propagates_witness :
  outcome (snapshot Schemas.getMessage JsonReader.read_json Frames.full
                    Schemas.strings Schemas.strict)
    = Throw (Raised two_number_errors)
  /\ outcome (data Schemas.getMessage JsonReader.read_json Frames.full
                   Schemas.strings Schemas.strict)
     = Throw (Raised two_number_errors).
Proof.
  destruct (onError_exception_propagates Schemas.getMessage
              JsonReader.read_json Schemas.strings Schemas.strict Frames.full
              two_number_errors (Raised two_number_errors) eq_refl) as [Hs Hd].
  split.
  - apply Hs. vm_compute. auto.
  - apply Hd. vm_compute. auto.
Defined.

(** ** C8: the classifier on a subscription-ended message *)

Example unsubscribed_message_parsed :
  JsonReader.read_json Frames.unsubscribed = Some unsubscribed_message.
Proof. vm_compute. reflexivity. Qed.

Lemma isSnapshot_truthy_hasUuid (msg r : value) :
  MessageTypes.isSnapshot msg = Normal r -> truthy r = true ->
  MessageTypes.hasUuid msg = Normal (VBool true).
Proof.
  unfold MessageTypes.isSnapshot, MessageTypes.hasUuid, MessageTypes.cbind.
  destruct (get msg "snapshot") as [snap |]; [| discriminate].
  destruct (get msg "uuid") as [uuid |]; [| discriminate].
  intros H Ht. injection H as <-. f_equal.
  unfold js_and in Ht.
  destruct (truthy snap) eqn:Ts; [| rewrite Ts in Ht; congruence].
  destruct (Array_isArray snap); simpl in Ht; [| discriminate].
  unfold MessageTypes.typeof_is in *. simpl in Ht. now rewrite Ht.
Qed.

(** C8: the message {"uuid":"x","event":"unsubscribed","amountRefunded":5}
    satisfies [isUnubscribed] and [hasUuid] and does not satisfy
    [isPaymentReceived]; and whenever [isSnapshot] returns true, so does
    [hasUuid]. *)
Theorem unsubscribed_message_classified :
  MessageTypes.isUnubscribed unsubscribed_message = Normal (VBool true)
  /\ MessageTypes.hasUuid unsubscribed_message = Normal (VBool true)
  /\ MessageTypes.isPaymentReceived unsubscribed_message = Normal (VBool false)
  /\ (forall msg : value,
        MessageTypes.isSnapshot msg = Normal (VBool true) ->
        MessageTypes.hasUuid msg = Normal (VBool true)).
Proof.
  repeat split.
  intros msg H. now apply (isSnapshot_truthy_hasUuid msg (VBool true)).
Qed.

Lemma unsubscribed_message_classified_witness :
  MessageTypes.hasUuid
    (VObj [("uuid", VStr "abc"); ("snapshot", VArr [VNum 1; VNum 2])])
  = Normal (VBool true).
Proof.
  apply (proj2 (proj2 (proj2 unsubscribed_message_classified))).
  reflexivity.
Defined.

(** ** C9: a uuid that is present but falsy *)

(** C9: when the envelope's uuid is the empty string, or any other falsy
    value, both validators call [onError] with their no-UUID message,
    complete as [onError] does, and do not reach the decoder. *)
Theorem falsy_uuid_treated_as_missing
  {ValidationError : Type} (getMessage : ValidationError -> string)
  (JSON_parse : string -> option value) (type : Type_ ValidationError)
  (onError : OnError) (frame : string) (json uuid : value) :
  JSON_parse frame = Some json ->
  get json "uuid" = Normal uuid ->
  truthy uuid = false ->
  snapshot getMessage JSON_parse frame type onError =
    ([EvOnError (VStr (no_UUID_snapshot frame))],
     onError (VStr (no_UUID_snapshot frame)))
  /\ data getMessage JSON_parse frame type onError =
       ([EvOnError (VStr (no_UUID_data frame))],
        onError (VStr (no_UUID_data frame)))
  /\ mentions "no UUID" (no_UUID_snapshot frame)
  /\ mentions "no UUID" (no_UUID_data frame)
  /\ ~ decoder_reached (snapshot getMessage JSON_parse frame type onError)
  /\ ~ decoder_reached (data getMessage JSON_parse frame type onError).
Proof.
  intros Hp Hu Hf.
  rewrite (snapshot_falsy_uuid _ getMessage JSON_parse type onError frame json
             uuid Hp Hu Hf).
  rewrite (data_falsy_uuid _ getMessage JSON_parse type onError frame json
             uuid Hp Hu Hf).
  repeat split.
  - apply mentions_no_UUID_snapshot.
  - apply mentions_no_UUID_data.
  - intros (payload & n & [H | []]). discriminate.
  - intros (payload & n & [H | []]). discriminate.
Qed.

Lemma falsy_uuid_treated_as_missing_witness :
  snapshot Schemas.getMessage JsonReader.read_json Frames.empty_uuid
           Schemas.numbers Schemas.fallback =
    ([EvOnError (VStr (no_UUID_snapshot Frames.empty_uuid))],
     Schemas.fallback (VStr (no_UUID_snapshot Frames.empty_uuid)))
  /\ data Schemas.getMessage JsonReader.read_json Frames.empty_uuid
          Schemas.numbers Schemas.fallback =
       ([EvOnError (VStr (no_UUID_data Frames.empty_uuid))],
        Schemas.fallback (VStr (no_UUID_data Frames.empty_uuid)))
  /\ mentions "no UUID" (no_UUID_snapshot Frames.empty_uuid)
  /\ mentions "no UUID" (no_UUID_data Frames.empty_uuid)
  /\ ~ decoder_reached
         (snapshot Schemas.getMessage JsonReader.read_json Frames.empty_uuid
                   Schemas.numbers Schemas.fallback)
  /\ ~ decoder_reached
         (data Schemas.getMessage JsonReader.read_json Frames.empty_uuid
               Schemas.numbers Schemas.fallback).
Proof.
  apply (falsy_uuid_treated_as_missing Schemas.getMessage JsonReader.read_json
           Schemas.numbers Schemas.fallback Frames.empty_uuid
           (VObj [("uuid", VStr EmptyString); ("snapshot", VArr [VNum 1]);
                  ("data", VArr [VNum 1])])
           (VStr EmptyString)).
  - vm_compute. reflexivity.
  - reflexivity.
  - reflexivity.
Defined.

(** ** C10: where the fallback value ends up *)

(** C10: after a decode failure the value [onError] returns is placed in
    the result under [snapshot] (respectively [data]) next to the
    envelope's uuid; after an envelope-shape failure the completion of
    [onError] is the completion of the call, unwrapped.  Each of the four
    parts stands on its own hypotheses, with its own schema and hook. *)
Theorem fallback_wrapped_after_decode_bare_after_envelope
  {ValidationError : Type} (getMessage : ValidationError -> string)
  (JSON_parse : string -> option value) :
  (forall (type : Type_ ValidationError) (onError : OnError) (frame : string)
          (uuid snap : value) (errors : list ValidationError) (v : value),
      envelope JSON_parse frame "snapshot" uuid snap ->
      truthy uuid = true ->
      Array_isArray snap = true ->
      decode type snap = inl errors ->
      onError (decode_error getMessage errors) = Normal v ->
      outcome (snapshot getMessage JSON_parse frame type onError)
        = Normal (VObj [("uuid", uuid); ("snapshot", v)]))
  /\ (forall (type : Type_ ValidationError) (onError : OnError) (frame : string)
             (uuid dat : value) (errors : list ValidationError) (v : value),
         envelope JSON_parse frame "data" uuid dat ->
         truthy uuid = true ->
         truthy dat = true ->
         decode type dat = inl errors ->
         onError (decode_error getMessage errors) = Normal v ->
         outcome (data getMessage JSON_parse frame type onError)
           = Normal (VObj [("uuid", uuid); ("data", v)]))
  /\ (forall (type : Type_ ValidationError) (onError : OnError) (frame : string)
             (uuid snap : value),
         envelope JSON_parse frame "snapshot" uuid snap ->
         truthy uuid && truthy snap && Array_isArray snap = false ->
         exists m,
           snapshot getMessage JSON_parse frame type onError
           = ([EvOnError (VStr m)], onError (VStr m)))
  /\ (forall (type : Type_ ValidationError) (onError : OnError) (frame : string)
             (uuid dat : value),
         envelope JSON_parse frame "data" uuid dat ->
         truthy uuid && truthy dat = false ->
         exists m,
           data getMessage JSON_parse frame type onError
           = ([EvOnError (VStr m)], onError (VStr m))).
Proof.
  split; [| split; [| split]].
  - intros type onError frame uuid snap errors v He Tu Ta Hd Hv.
    rewrite (snapshot_unfold _ getMessage JSON_parse type onError frame
               uuid snap He).
    rewrite Tu, (array_truthy snap Ta), Ta. simpl.
    rewrite (validate_failed _ getMessage _ _ onError _ Hd).
    unfold bind. now rewrite Hv.
  - intros type onError frame uuid dat errors v He Tu Td Hd Hv.
    rewrite (data_unfold _ getMessage JSON_parse type onError frame
               uuid dat He).
    rewrite Tu, Td. simpl.
    rewrite (validate_failed _ getMessage _ _ onError _ Hd).
    unfold bind. now rewrite Hv.
  - intros type onError frame uuid snap He Hbad.
    rewrite (snapshot_unfold _ getMessage JSON_parse type onError frame
               uuid snap He).
    destruct (truthy uuid); simpl; [| eexists; reflexivity].
    destruct (truthy snap); simpl; [| eexists; reflexivity].
    destruct (Array_isArray snap); simpl; [| eexists; reflexivity].
    discriminate Hbad.
  - intros type onError frame uuid dat He Hbad.
    rewrite (data_unfold _ getMessage JSON_parse type onError frame
               uuid dat He).
    destruct (truthy uuid); simpl; [| eexists; reflexivity].
    destruct (truthy dat); simpl; [| eexists; reflexivity].
    discriminate Hbad.
Qed.

Lemma fallback_wrapped_after_decode_bare_after_envelope_witness :
  outcome (snapshot Schemas.getMessage JsonReader.read_json Frames.full
                    Schemas.strings Schemas.fallback)
    = Normal (VObj [("uuid", VStr "abc"); ("snapshot", VStr "fallback")])
  /\ outcome (data Schemas.getMessage JsonReader.read_json Frames.object_data
                   Schemas.numbers Schemas.fallback)
     = Normal (VObj [("uuid", VStr "abc"); ("data", VStr "fallback")])
  /\ (exists m,
        snapshot Schemas.getMessage JsonReader.read_json Frames.empty_uuid
                 Schemas.strings lenient_on_envelope
        = ([EvOnError (VStr m)], lenient_on_envelope (VStr m)))
  /\ (exists m,
        data Schemas.getMessage JsonReader.read_json Frames.zero_data
             Schemas.any lenient_on_envelope
        = ([EvOnError (VStr m)], lenient_on_envelope (VStr m))).
Proof.
  destruct (fallback_wrapped_after_decode_bare_after_envelope
              Schemas.getMessage JsonReader.read_json)
    as (Hsnap & Hdata & Hsnap' & Hdata').
  split; [| split; [| split]].
  - apply (Hsnap Schemas.strings Schemas.fallback Frames.full (VStr "abc")
             (VArr [VNum 1; VNum 2])
             [Schemas.elem_error "Array<string>" "string" 0;
              Schemas.elem_error "Array<string>" "string" 1]).
    + eexists. split; [vm_compute; reflexivity | split; reflexivity].
    + reflexivity.
    + reflexivity.
    + reflexivity.
    + reflexivity.
  - apply (Hdata Schemas.numbers Schemas.fallback Frames.object_data
             (VStr "abc") (VObj [("bid", VNum 1)])
             ["Invalid value supplied to : Array<number>"]).
    + eexists. split; [vm_compute; reflexivity | split; reflexivity].
    + reflexivity.
    + reflexivity.
    + reflexivity.
    + reflexivity.
  - apply (Hsnap' Schemas.strings lenient_on_envelope Frames.empty_uuid
             (VStr EmptyString) (VArr [VNum 1])).
    + eexists. split; [vm_compute; reflexivity | split; reflexivity].
    + reflexivity.
  - apply (Hdata' Schemas.any lenient_on_envelope Frames.zero_data
             (VStr "abc") (VNum 0)).
    + eexists. split; [vm_compute; reflexivity | split; reflexivity].
    + reflexivity.
Defined.

(** ** Further checks of the embedding on concrete frames *)

(** The text of null is JSON, but destructuring null throws before any
    check is made. *)
Example snapshot_of_null_frame :
  snapshot Schemas.getMessage JsonReader.read_json "null"
           Schemas.numbers Schemas.lenient = ([], Throw TypeError).
Proof. vm_compute. reflexivity. Qed.

Example snapshot_accepts_numbers :
  snapshot Schemas.getMessage JsonReader.read_json Frames.full
           Schemas.numbers Schemas.strict =
    ([EvDecode "Array<number>" (VArr [VNum 1; VNum 2])],
     Normal (VObj [("uuid", VStr "abc"); ("snapshot", VArr [VNum 1; VNum 2])])).
Proof. vm_compute. reflexivity. Qed.

Example snapshot_field_missing :
  snapshot Schemas.getMessage JsonReader.read_json Frames.empty_data
           Schemas.numbers Schemas.strict =
    ([EvOnError (VStr (no_snapshot_field Frames.empty_data))],
     Throw (Raised (VStr (no_snapshot_field Frames.empty_data)))).
Proof. vm_compute. reflexivity. Qed.

Example snapshot_field_not_array :
  snapshot Schemas.getMessage JsonReader.read_json
           ("{" ++ Frames.q "uuid" ++ ":1," ++ Frames.q "snapshot" ++ ":{}}")
           Schemas.numbers Schemas.lenient =
    ([EvOnError
        (VStr (snapshot_not_array
                 ("{" ++ Frames.q "uuid" ++ ":1," ++ Frames.q "snapshot" ++ ":{}}")))],
     Normal VNull).
Proof. vm_compute. reflexivity. Qed.


(** * Further properties of the code *)

(** ** Every run of the envelope validators *)

Lemma mentions_between (before text after : string) :
  mentions text (before ++ text ++ after).
Proof. now exists before, after. Qed.

Lemma get_throws (json : value) (k : string) (e : thrown) :
  get json k = Throw e -> e = TypeError /\ (json = VNull \/ json = VUndefined).
Proof.
  destruct json; simpl; intros H; try discriminate; injection H as <-; auto.
Qed.

Section RunsOfValidators.

Variable ValidationError : Type.
Variable getMessage : ValidationError -> string.
Variable JSON_parse : string -> option value.
Variable type : Type_ ValidationError.
Variable onError : OnError.

Lemma validate_wrapped_run_of (frame field : string) (passes : value -> bool)
  (uuid payload : value) :
  envelope JSON_parse frame field uuid payload ->
  truthy uuid = true -> passes payload = true ->
  run_of getMessage JSON_parse type onError frame field passes
    (bind (validate getMessage payload type onError)
          (fun decoded => ret (VObj [("uuid", uuid); (field, decoded)]))).
Proof.
  intros He Tu Tp.
  destruct (decode type payload) as [errors | a] eqn:Hd.
  - rewrite (validate_failed _ getMessage _ _ onError _ Hd). unfold bind, ret.
    pose proof (ran_rejected getMessage JSON_parse type onError frame field
                  passes uuid payload errors He Tu Tp Hd) as H.
    destruct (onError (decode_error getMessage errors)); exact H.
  - rewrite (validate_ok _ getMessage _ _ onError _ Hd).
    now apply (ran_decoded getMessage JSON_parse type onError frame field
                 passes uuid payload a).
Qed.

Lemma snapshot_run_of (frame : string) :
  run_of getMessage JSON_parse type onError frame "snapshot" snapshot_passes
    (snapshot getMessage JSON_parse frame type onError).
Proof.
  destruct (frame_cases JSON_parse frame "snapshot")
    as [Hn | [(json & Hp & Hu) | (uuid & snap & He)]].
  - rewrite (snapshot_not_json _ getMessage JSON_parse type onError frame Hn).
    now constructor.
  - rewrite (snapshot_no_object _ getMessage JSON_parse type onError frame json Hp Hu).
    apply (ran_not_object _ _ _ _ _ _ _ json Hp). now apply (get_throws _ _ _ Hu).
  - rewrite (snapshot_unfold _ getMessage JSON_parse type onError frame uuid snap He).
    unfold snapshot_passes.
    destruct (truthy uuid) eqn:Tu; simpl.
    2:{ apply (ran_malformed _ _ _ _ _ _ _ uuid snap); auto.
        - now rewrite Tu.
        - apply mentions_between. }
    destruct (truthy snap) eqn:Ts; simpl.
    2:{ apply (ran_malformed _ _ _ _ _ _ _ uuid snap); auto.
        - now rewrite Tu, Ts.
        - apply mentions_between. }
    destruct (Array_isArray snap) eqn:Ta; simpl.
    2:{ apply (ran_malformed _ _ _ _ _ _ _ uuid snap); auto.
        - now rewrite Tu, Ts, Ta.
        - apply mentions_between. }
    apply validate_wrapped_run_of; auto. now rewrite Ts, Ta.
Qed.

Lemma data_run_of (frame : string) :
  run_of getMessage JSON_parse type onError frame "data" data_passes
    (data getMessage JSON_parse frame type onError).
Proof.
  destruct (frame_cases JSON_parse frame "data")
    as [Hn | [(json & Hp & Hu) | (uuid & dat & He)]].
  - rewrite (data_not_json _ getMessage JSON_parse type onError frame Hn).
    now constructor.
  - rewrite (data_no_object _ getMessage JSON_parse type onError frame json Hp Hu).
    apply (ran_not_object _ _ _ _ _ _ _ json Hp). now apply (get_throws _ _ _ Hu).
  - rewrite (data_unfold _ getMessage JSON_parse type onError frame uuid dat He).
    unfold data_passes.
    destruct (truthy uuid) eqn:Tu; simpl.
    2:{ apply (ran_malformed _ _ _ _ _ _ _ uuid dat); auto.
        - now rewrite Tu.
        - apply mentions_between. }
    destruct (truthy dat) eqn:Ts; simpl.
    2:{ apply (ran_malformed _ _ _ _ _ _ _ uuid dat); auto.
        - now rewrite Tu, Ts.
        - apply mentions_between. }
    apply validate_wrapped_run_of; auto.
Qed.

End RunsOfValidators.

Lemma validator_run_of {ValidationError : Type}
  (getMessage : ValidationError -> string)
  (JSON_parse : string -> option value) (type : Type_ ValidationError)
  (onError : OnError) (frame field : string) (m : M value) :
  validator_run getMessage JSON_parse type onError frame field m ->
  exists passes,
    run_of getMessage JSON_parse type onError frame field passes m.
Proof.
  intros [[-> ->] | [-> ->]].
  - exists snapshot_passes. apply snapshot_run_of.
  - exists data_passes. apply data_run_of.
Qed.

(** X1: a frame that passes the three checks of [snapshot] and whose payload
    decodes is answered with the envelope's uuid and the decoded payload,
    after one call of the decoder and none of the hook. *)
Theorem snapshot_returns_decoded
  {ValidationError : Type} (getMessage : ValidationError -> string)
  (JSON_parse : string -> option value) (type : Type_ ValidationError)
  (onError : OnError) (frame : string) (uuid snap decoded : value) :
  envelope JSON_parse frame "snapshot" uuid snap ->
  truthy uuid = true ->
  Array_isArray snap = true ->
  decode type snap = inr decoded ->
  snapshot getMessage JSON_parse frame type onError =
    ([EvDecode (name type) snap],
     Normal (VObj [("uuid", uuid); ("snapshot", decoded)])).
Proof.
  intros He Tu Ta Hd.
  rewrite (snapshot_unfold _ getMessage JSON_parse type onError frame uuid snap He).
  rewrite Tu, (array_truthy snap Ta), Ta. simpl.
  now rewrite (validate_ok _ getMessage _ _ onError _ Hd).
Qed.

Lemma snapshot_returns_decoded_witness :
  snapshot Schemas.getMessage JsonReader.read_json Frames.numeric_uuid
           Schemas.numbers Schemas.strict =
    ([EvDecode "Array<number>" (VArr [VNum 1; VNum 2])],
     Normal (VObj [("uuid", VNum 7); ("snapshot", VArr [VNum 1; VNum 2])])).
Proof.
  apply (snapshot_returns_decoded Schemas.getMessage JsonReader.read_json
           Schemas.numbers Schemas.strict Frames.numeric_uuid
           (VNum 7) (VArr [VNum 1; VNum 2]) (VArr [VNum 1; VNum 2])).
  - eexists. split; [vm_compute; reflexivity | split; reflexivity].
  - reflexivity.
  - reflexivity.
  - reflexivity.
Defined.

(** X2: [data] decodes whatever truthy value the data field holds, an
    object as well as an array, and answers with the envelope's uuid and the
    decoded payload. *)
Theorem data_returns_decoded
  {ValidationError : Type} (getMessage : ValidationError -> string)
  (JSON_parse : string -> option value) (type : Type_ ValidationError)
  (onError : OnError) (frame : string) (uuid dat decoded : value) :
  envelope JSON_parse frame "data" uuid dat ->
  truthy uuid = true ->
  truthy dat = true ->
  decode type dat = inr decoded ->
  data getMessage JSON_parse frame type onError =
    ([EvDecode (name type) dat],
     Normal (VObj [("uuid", uuid); ("data", decoded)])).
Proof.
  intros He Tu Td Hd.
  rewrite (data_unfold _ getMessage JSON_parse type onError frame uuid dat He).
  rewrite Tu, Td. simpl.
  now rewrite (validate_ok _ getMessage _ _ onError _ Hd).
Qed.

Lemma data_returns_decoded_witness :
  data Schemas.getMessage JsonReader.read_json Frames.object_data
       Schemas.any Schemas.strict =
    ([EvDecode "any" (VObj [("bid", VNum 1)])],
     Normal (VObj [("uuid", VStr "abc"); ("data", VObj [("bid", VNum 1)])])).
Proof.
  apply (data_returns_decoded Schemas.getMessage JsonReader.read_json
           Schemas.any Schemas.strict Frames.object_data
           (VStr "abc") (VObj [("bid", VNum 1)]) (VObj [("bid", VNum 1)])).
  - eexists. split; [vm_compute; reflexivity | split; reflexivity].
  - reflexivity.
  - reflexivity.
  - reflexivity.
Defined.

(** X3: with a uuid, a snapshot field that is absent or falsy (null, false,
    0, the empty string) makes [snapshot] call the hook with the
    no-'snapshot'-field message and complete as the hook does; the decoder is
    not called. *)
Theorem snapshot_reports_missing_field
  {ValidationError : Type} (getMessage : ValidationError -> string)
  (JSON_parse : string -> option value) (type : Type_ ValidationError)
  (onError : OnError) (frame : string) (uuid snap : value) :
  envelope JSON_parse frame "snapshot" uuid snap ->
  truthy uuid = true ->
  truthy snap = false ->
  snapshot getMessage JSON_parse frame type onError =
    ([EvOnError (VStr ("Message " ++ frame ++ " has no 'snapshot' field!"))],
     onError (VStr ("Message " ++ frame ++ " has no 'snapshot' field!"))).
Proof.
  intros He Tu Ts.
  rewrite (snapshot_unfold _ getMessage JSON_parse type onError frame uuid snap He).
  now rewrite Tu, Ts.
Qed.

Lemma snapshot_reports_missing_field_witness :
  snapshot Schemas.getMessage JsonReader.read_json Frames.empty_data
           Schemas.numbers Schemas.lenient =
    ([EvOnError
        (VStr ("Message " ++ Frames.empty_data ++ " has no 'snapshot' field!"))],
     Schemas.lenient
       (VStr ("Message " ++ Frames.empty_data ++ " has no 'snapshot' field!"))).
Proof.
  apply (snapshot_reports_missing_field Schemas.getMessage JsonReader.read_json
           Schemas.numbers Schemas.lenient Frames.empty_data
           (VStr "abc") VUndefined).
  - eexists. split; [vm_compute; reflexivity | split; reflexivity].
  - reflexivity.
  - reflexivity.
Defined.

(** X4: with a uuid, a snapshot field that is truthy but not an array makes
    [snapshot] call the hook with the not-an-array message and complete as
    the hook does; the decoder is not called. *)
Theorem snapshot_reports_non_array
  {ValidationError : Type} (getMessage : ValidationError -> string)
  (JSON_parse : string -> option value) (type : Type_ ValidationError)
  (onError : OnError) (frame : string) (uuid snap : value) :
  envelope JSON_parse frame "snapshot" uuid snap ->
  truthy uuid = true ->
  truthy snap = true ->
  Array_isArray snap = false ->
  snapshot getMessage JSON_parse frame type onError =
    ([EvOnError (VStr ("Snapshot in message " ++ frame ++ " is not an array!"))],
     onError (VStr ("Snapshot in message " ++ frame ++ " is not an array!"))).
Proof.
  intros He Tu Ts Ta.
  rewrite (snapshot_unfold _ getMessage JSON_parse type onError frame uuid snap He).
  now rewrite Tu, Ts, Ta.
Qed.

Lemma snapshot_reports_non_array_witness :
  snapshot Schemas.getMessage JsonReader.read_json Frames.object_snapshot
           Schemas.any Schemas.lenient =
    ([EvOnError
        (VStr ("Snapshot in message " ++ Frames.object_snapshot
                 ++ " is not an array!"))],
     Schemas.lenient
       (VStr ("Snapshot in message " ++ Frames.object_snapshot
                ++ " is not an array!"))).
Proof.
  apply (snapshot_reports_non_array Schemas.getMessage JsonReader.read_json
           Schemas.any Schemas.lenient Frames.object_snapshot
           (VStr "abc") (VObj [("bid", VNum 1)])).
  - eexists. split; [vm_compute; reflexivity | split; reflexivity].
  - reflexivity.
  - reflexivity.
  - reflexivity.
Defined.

(** X5: with a uuid, a data field that is absent or falsy (null, false, 0,
    the empty string) makes [data] call the hook with the no-'data'-field
    message and complete as the hook does; the decoder is not called. *)
Theorem data_reports_missing_field
  {ValidationError : Type} (getMessage : ValidationError -> string)
  (JSON_parse : string -> option value) (type : Type_ ValidationError)
  (onError : OnError) (frame : string) (uuid dat : value) :
  envelope JSON_parse frame "data" uuid dat ->
  truthy uuid = true ->
  truthy dat = false ->
  data getMessage JSON_parse frame type onError =
    ([EvOnError (VStr ("Message " ++ frame ++ " has no 'data' field!"))],
     onError (VStr ("Message " ++ frame ++ " has no 'data' field!"))).
Proof.
  intros He Tu Td.
  rewrite (data_unfold _ getMessage JSON_parse type onError frame uuid dat He).
  now rewrite Tu, Td.
Qed.

Lemma data_reports_missing_field_witness :
  data Schemas.getMessage JsonReader.read_json Frames.zero_data
       Schemas.any Schemas.lenient =
    ([EvOnError
        (VStr ("Message " ++ Frames.zero_data ++ " has no 'data' field!"))],
     Schemas.lenient
       (VStr ("Message " ++ Frames.zero_data ++ " has no 'data' field!"))).
Proof.
  apply (data_reports_missing_field Schemas.getMessage JsonReader.read_json
           Schemas.any Schemas.lenient Frames.zero_data
           (VStr "abc") (VNum 0)).
  - eexists. split; [vm_compute; reflexivity | split; reflexivity].
  - reflexivity.
  - reflexivity.
Defined.

(** X6: when a validator throws without having called the decoder, what it
    throws is the SyntaxError of [JSON.parse] (the frame is not JSON), the
    TypeError of destructuring null, or what the hook threw when it was given
    the envelope error; the envelope checks themselves throw nothing.  (What
    can be thrown once the decoder has been called is not stated here: the
    embedding takes [type.decode] to return its result.) *)
Theorem validator_throws_before_decoding
  {ValidationError : Type} (getMessage : ValidationError -> string)
  (JSON_parse : string -> option value) (type : Type_ ValidationError)
  (onError : OnError) (frame field : string) (m : M value) (e : thrown) :
  validator_run getMessage JSON_parse type onError frame field m ->
  ~ decoder_reached m ->
  outcome m = Throw e ->
  (e = SyntaxError /\ JSON_parse frame = None /\ trace m = [])
  \/ (e = TypeError
      /\ (JSON_parse frame = Some VNull \/ JSON_parse frame = Some VUndefined)
      /\ trace m = [])
  \/ (exists s,
        trace m = [EvOnError (VStr s)] /\ onError (VStr s) = Throw e).
Proof.
  intros Hv Hnot Ho.
  destruct (validator_run_of _ _ _ _ _ _ _ Hv) as [passes Hr].
  destruct Hr as [Hn | json Hp Hj | uuid payload s He Hc Hm
                  | uuid payload decoded He Tu Tp Hd
                  | uuid payload errors He Tu Tp Hd]; simpl in Ho.
  - left. injection Ho as <-. auto.
  - right. left. injection Ho as <-. split; [reflexivity |].
    destruct Hj as [-> | ->]; auto.
  - right. right. exists s. auto.
  - discriminate.
  - contradiction Hnot. exists payload, (name type). simpl. auto.
Qed.

Lemma validator_throws_before_decoding_witness :
  (Raised (VStr (no_UUID_snapshot Frames.snapshot_without_uuid)) = SyntaxError
   /\ JsonReader.read_json Frames.snapshot_without_uuid = None
   /\ trace (snapshot Schemas.getMessage JsonReader.read_json
                      Frames.snapshot_without_uuid Schemas.numbers
                      Schemas.strict) = [])
  \/ (Raised (VStr (no_UUID_snapshot Frames.snapshot_without_uuid)) = TypeError
      /\ (JsonReader.read_json Frames.snapshot_without_uuid = Some VNull
          \/ JsonReader.read_json Frames.snapshot_without_uuid
             = Some VUndefined)
      /\ trace (snapshot Schemas.getMessage JsonReader.read_json
                         Frames.snapshot_without_uuid Schemas.numbers
                         Schemas.strict) = [])
  \/ (exists s,
        trace (snapshot Schemas.getMessage JsonReader.read_json
                        Frames.snapshot_without_uuid Schemas.numbers
                        Schemas.strict) = [EvOnError (VStr s)]
        /\ Schemas.strict (VStr s)
           = Throw (Raised (VStr (no_UUID_snapshot
                                    Frames.snapshot_without_uuid)))).
Proof.
  apply (validator_throws_before_decoding Schemas.getMessage
           JsonReader.read_json Schemas.numbers Schemas.strict
           Frames.snapshot_without_uuid "snapshot").
  - left. split; reflexivity.
  - intros (payload & n & Hin). vm_compute in Hin.
    destruct Hin as [Hin | []]. discriminate.
  - vm_compute. reflexivity.
Defined.

(** X7: a validator calls the decoder at most once and the hook at most
    once, the decoder first; the hook is given a string when the decoder was
    not called and a DataValidationError when it was. *)
Theorem validator_call_order
  {ValidationError : Type} (getMessage : ValidationError -> string)
  (JSON_parse : string -> option value) (type : Type_ ValidationError)
  (onError : OnError) (frame field : string) (m : M value) :
  validator_run getMessage JSON_parse type onError frame field m ->
  trace m = []
  \/ (exists s, trace m = [EvOnError (VStr s)])
  \/ (exists payload, trace m = [EvDecode (name type) payload])
  \/ (exists payload summary,
        trace m = [EvDecode (name type) payload;
                   EvOnError (DataValidationError summary)]).
Proof.
  intros Hv.
  destruct (validator_run_of _ _ _ _ _ _ _ Hv) as [passes Hr].
  destruct Hr; simpl; eauto 6.
  right. right. right. unfold decode_error. eauto.
Qed.

Lemma validator_call_order_witness :
  trace (snapshot Schemas.getMessage JsonReader.read_json Frames.full
                  Schemas.strings Schemas.fallback) = []
  \/ (exists s,
        trace (snapshot Schemas.getMessage JsonReader.read_json Frames.full
                        Schemas.strings Schemas.fallback)
        = [EvOnError (VStr s)])
  \/ (exists payload,
        trace (snapshot Schemas.getMessage JsonReader.read_json Frames.full
                        Schemas.strings Schemas.fallback)
        = [EvDecode (name Schemas.strings) payload])
  \/ (exists payload summary,
        trace (snapshot Schemas.getMessage JsonReader.read_json Frames.full
                        Schemas.strings Schemas.fallback)
        = [EvDecode (name Schemas.strings) payload;
           EvOnError (DataValidationError summary)]).
Proof.
  apply (validator_call_order Schemas.getMessage JsonReader.read_json
           Schemas.strings Schemas.fallback Frames.full "snapshot").
  left. split; reflexivity.
Defined.

(** X8: a frame that is the JSON text of null makes both validators throw a
    TypeError: neither the decoder nor the hook is called, so the caller's
    error policy does not see this frame. *)
Theorem null_frame_bypasses_hook
  {ValidationError : Type} (getMessage : ValidationError -> string)
  (JSON_parse : string -> option value) (type : Type_ ValidationError)
  (onError : OnError) (frame : string) :
  JSON_parse frame = Some VNull ->
  snapshot getMessage JSON_parse frame type onError = ([], Throw TypeError)
  /\ data getMessage JSON_parse frame type onError = ([], Throw TypeError).
Proof.
  intros Hp. split.
  - now apply (snapshot_no_object _ getMessage JSON_parse type onError frame VNull).
  - now apply (data_no_object _ getMessage JSON_parse type onError frame VNull).
Qed.

Lemma null_frame_bypasses_hook_witness :
  snapshot Schemas.getMessage JsonReader.read_json "null"
           Schemas.numbers Schemas.lenient = ([], Throw TypeError)
  /\ data Schemas.getMessage JsonReader.read_json "null"
          Schemas.numbers Schemas.lenient = ([], Throw TypeError).
Proof.
  apply (null_frame_bypasses_hook Schemas.getMessage JsonReader.read_json
           Schemas.numbers Schemas.lenient "null").
  vm_compute. reflexivity.
Defined.

(** X9: every message string a validator hands to the hook contains the
    text of the frame, unabridged. *)
Theorem envelope_error_quotes_frame
  {ValidationError : Type} (getMessage : ValidationError -> string)
  (JSON_parse : string -> option value) (type : Type_ ValidationError)
  (onError : OnError) (frame field : string) (m : M value) (s : string) :
  validator_run getMessage JSON_parse type onError frame field m ->
  In (EvOnError (VStr s)) (trace m) ->
  mentions frame s.
Proof.
  intros Hv Hin.
  destruct (validator_run_of _ _ _ _ _ _ _ Hv) as [passes Hr].
  destruct Hr as [Hn | json Hp Hj | uuid payload s' He Hc Hm
                  | uuid payload decoded He Tu Tp Hd
                  | uuid payload errors He Tu Tp Hd]; simpl in Hin.
  - contradiction.
  - contradiction.
  - destruct Hin as [Heq | []]. now injection Heq as <-.
  - destruct Hin as [Heq | []]. discriminate.
  - destruct Hin as [Heq | [Heq | []]]; discriminate.
Qed.

Lemma envelope_error_quotes_frame_witness :
  mentions Frames.zero_data
    ("Message " ++ Frames.zero_data ++ " has no 'data' field!").
Proof.
  apply (envelope_error_quotes_frame Schemas.getMessage JsonReader.read_json
           Schemas.any Schemas.lenient Frames.zero_data "data"
           (data Schemas.getMessage JsonReader.read_json Frames.zero_data
                 Schemas.any Schemas.lenient)).
  - right. split; reflexivity.
  - vm_compute. auto.
Defined.

(** X10: when a validator returns after the decoder ran, what it returns is
    an object with exactly the keys uuid and the payload field, and its uuid
    is the envelope's, unchanged. *)
Theorem validator_result_keeps_uuid
  {ValidationError : Type} (getMessage : ValidationError -> string)
  (JSON_parse : string -> option value) (type : Type_ ValidationError)
  (onError : OnError) (frame field : string) (m : M value) (r : value) :
  validator_run getMessage JSON_parse type onError frame field m ->
  decoder_reached m ->
  outcome m = Normal r ->
  exists uuid payload v,
    envelope JSON_parse frame field uuid payload
    /\ truthy uuid = true
    /\ r = VObj [("uuid", uuid); (field, v)].
Proof.
  intros Hv (p & n & Hin) Ho.
  destruct (validator_run_of _ _ _ _ _ _ _ Hv) as [passes Hr].
  destruct Hr as [Hn | json Hp Hj | uuid payload s He Hc Hm
                  | uuid payload decoded He Tu Tp Hd
                  | uuid payload errors He Tu Tp Hd]; simpl in Hin, Ho.
  - contradiction.
  - contradiction.
  - destruct Hin as [H | []]. discriminate.
  - injection Ho as <-. eauto 6.
  - destruct (onError (decode_error getMessage errors)); [| discriminate].
    injection Ho as <-. eauto 6.
Qed.

Lemma validator_result_keeps_uuid_witness :
  exists uuid payload v,
    envelope JsonReader.read_json Frames.full "snapshot" uuid payload
    /\ truthy uuid = true
    /\ VObj [("uuid", VStr "abc"); ("snapshot", VStr "fallback")]
       = VObj [("uuid", uuid); ("snapshot", v)].
Proof.
  apply (validator_result_keeps_uuid Schemas.getMessage JsonReader.read_json
           Schemas.strings Schemas.fallback Frames.full "snapshot"
           (snapshot Schemas.getMessage JsonReader.read_json Frames.full
                     Schemas.strings Schemas.fallback)).
  - left. split; reflexivity.
  - exists (VArr [VNum 1; VNum 2]), "Array<string>". vm_compute. auto.
  - vm_compute. reflexivity.
Defined.

(** ** The classifier *)

Lemma typeof_string (v : value) :
  String.eqb (typeof v) "string" = true <-> exists s, v = VStr s.
Proof.
  split.
  - destruct v; simpl; intros H; try discriminate. eauto.
  - intros [s ->]. reflexivity.
Qed.

Lemma typeof_number (v : value) :
  String.eqb (typeof v) "number" = true <-> exists n, v = VNum n.
Proof.
  split.
  - destruct v; simpl; intros H; try discriminate. eauto.
  - intros [n ->]. reflexivity.
Qed.

Lemma js_and_bool_true (a : value) (b : bool) :
  js_and a (VBool b) = VBool true <-> truthy a = true /\ b = true.
Proof.
  unfold js_and. split.
  - destruct (truthy a) eqn:Ta.
    + intros H. injection H as ->. auto.
    + intros ->. discriminate.
  - intros [-> ->]. reflexivity.
Qed.

Lemma hasUuid_true_iff (msg : value) :
  MessageTypes.hasUuid msg = Normal (VBool true)
  <-> exists s, get msg "uuid" = Normal (VStr s).
Proof.
  unfold MessageTypes.hasUuid, MessageTypes.cbind, MessageTypes.typeof_is.
  destruct (get msg "uuid") as [uuid | e].
  - split.
    + intros H. injection H as H. apply typeof_string in H as [s ->]. eauto.
    + intros [s H]. injection H as ->. reflexivity.
  - split; [discriminate | intros [s H]; discriminate].
Qed.

Lemma isSnapshot_true_iff (msg : value) :
  MessageTypes.isSnapshot msg = Normal (VBool true)
  <-> exists elems s,
        get msg "snapshot" = Normal (VArr elems)
        /\ get msg "uuid" = Normal (VStr s).
Proof.
  unfold MessageTypes.isSnapshot, MessageTypes.cbind, MessageTypes.typeof_is.
  destruct (get msg "snapshot") as [snap | e];
    [| split; [discriminate | intros (? & ? & H & _); discriminate]].
  destruct (get msg "uuid") as [uuid | e];
    [| split; [discriminate | intros (? & ? & _ & H); discriminate]].
  split.
  - intros H. injection H as H.
    apply js_and_bool_true in H as [Ht Hs].
    apply typeof_string in Hs as [s ->].
    unfold js_and in Ht. destruct (truthy snap) eqn:Ts; [| congruence].
    simpl in Ht. destruct snap; try discriminate. eauto.
  - intros (elems & s & Hs & Hu). injection Hs as ->. injection Hu as ->.
    reflexivity.
Qed.

Lemma hasDataAndUuid_true_iff (msg : value) :
  MessageTypes.hasDataAndUuid msg = Normal (VBool true)
  <-> exists elems s,
        get msg "data" = Normal (VArr elems)
        /\ get msg "uuid" = Normal (VStr s).
Proof.
  unfold MessageTypes.hasDataAndUuid, MessageTypes.hasUuid, MessageTypes.cbind,
    MessageTypes.typeof_is.
  destruct (get msg "data") as [dat | e];
    [| split; [discriminate | intros (? & ? & H & _); discriminate]].
  destruct (get msg "uuid") as [uuid | e];
    [| split; [discriminate | intros (? & ? & _ & H); discriminate]].
  split.
  - intros H. injection H as H.
    apply js_and_bool_true in H as [Ht Hs].
    apply typeof_string in Hs as [s ->].
    simpl in Ht. destruct dat; try discriminate. eauto.
  - intros (elems & s & Hs & Hu). injection Hs as ->. injection Hu as ->.
    reflexivity.
Qed.

(** X11: [isSnapshot] returns true exactly for a message whose snapshot
    field is an array (the empty array included) and whose uuid is a string
    (the empty string included). *)
Theorem isSnapshot_true_exactly (msg : value) :
  MessageTypes.isSnapshot msg = Normal (VBool true)
  <-> exists elems s,
        get msg "snapshot" = Normal (VArr elems)
        /\ get msg "uuid" = Normal (VStr s).
Proof.
  apply isSnapshot_true_iff.
Qed.

(** X12: when the snapshot field of a message is absent or falsy,
    [isSnapshot] returns that field's value itself (undefined, null, 0, the
    empty string or false), which is a boolean only in the last case. *)
Theorem isSnapshot_returns_falsy_field (msg snap : value) :
  get msg "snapshot" = Normal snap ->
  truthy snap = false ->
  MessageTypes.isSnapshot msg = Normal snap.
Proof.
  intros Hs Ts.
  destruct (get_defined msg "snapshot" "uuid" snap Hs) as [uuid Hu].
  unfold MessageTypes.isSnapshot, MessageTypes.cbind. rewrite Hs, Hu.
  unfold js_and. rewrite Ts. now rewrite Ts.
Qed.

Lemma isSnapshot_returns_falsy_field_witness :
  MessageTypes.isSnapshot unsubscribed_message = Normal VUndefined.
Proof.
  apply (isSnapshot_returns_falsy_field unsubscribed_message VUndefined).
  - reflexivity.
  - reflexivity.
Defined.

(** X13: a message for which [hasDataAndUuid], [isPaymentReceived],
    [isTimeWarning] or [isUnubscribed] returns true also satisfies
    [hasUuid]. *)
Theorem classified_message_has_uuid (msg : value) :
  MessageTypes.hasDataAndUuid msg = Normal (VBool true)
  \/ MessageTypes.isPaymentReceived msg = Normal (VBool true)
  \/ MessageTypes.isTimeWarning msg = Normal (VBool true)
  \/ MessageTypes.isUnubscribed msg = Normal (VBool true) ->
  MessageTypes.hasUuid msg = Normal (VBool true).
Proof.
  intros H. apply hasUuid_true_iff.
  destruct H as [H | [H | [H | H]]].
  - apply hasDataAndUuid_true_iff in H as (elems & s & _ & Hu). eauto.
  - unfold MessageTypes.isPaymentReceived, MessageTypes.cbind,
      MessageTypes.typeof_is in H.
    destruct (get msg "uuid") as [uuid |]; [| discriminate].
    destruct (get msg "exchange") as [exchange |]; [| discriminate].
    destruct (get msg "duration") as [duration |]; [| discriminate].
    destruct (get msg "event") as [event |]; [| discriminate].
    destruct (get msg "symbol") as [symbol |]; [| discriminate].
    injection H as H.
    apply js_and_bool_true in H as [H _].
    destruct (String.eqb (typeof uuid) "string") eqn:Tu;
      [| unfold js_and in H; simpl in H; discriminate].
    apply typeof_string in Tu as [s ->]. eauto.
  - unfold MessageTypes.isTimeWarning, MessageTypes.cbind,
      MessageTypes.typeof_is in H.
    destruct (get msg "uuid") as [uuid |]; [| discriminate].
    destruct (String.eqb (typeof uuid) "string") eqn:Tu;
      [| simpl in H; discriminate].
    apply typeof_string in Tu as [s ->]. eauto.
  - unfold MessageTypes.isUnubscribed, MessageTypes.cbind,
      MessageTypes.typeof_is in H.
    destruct (get msg "uuid") as [uuid |]; [| discriminate].
    destruct (get msg "event") as [event |]; [| discriminate].
    destruct (get msg "amountRefunded") as [amount |]; [| discriminate].
    injection H as H.
    apply js_and_bool_true in H as [H _].
    destruct (String.eqb (typeof uuid) "string") eqn:Tu;
      [| unfold js_and in H; simpl in H; discriminate].
    apply typeof_string in Tu as [s ->]. eauto.
Qed.

Lemma classified_message_has_uuid_witness :
  MessageTypes.hasUuid time_warning_message = Normal (VBool true).
Proof.
  apply (classified_message_has_uuid time_warning_message).
  right. right. left. reflexivity.
Defined.

Lemma js_and_truthy (a b : value) :
  truthy (js_and a b) = true <-> truthy a = true /\ truthy b = true.
Proof.
  unfold js_and. destruct (truthy a) eqn:Ta.
  - tauto.
  - rewrite Ta. split; [discriminate | intros [H _]; discriminate].
Qed.

Lemma get_of_truthy (msg : value) (k : string) :
  truthy msg = true -> exists v, get msg k = Normal v.
Proof.
  destruct msg; simpl; intros H; try discriminate; eauto.
Qed.

(** X14: no message is at once a payment-received and a
    subscription-ended message: when [isPaymentReceived] returns true,
    [isUnubscribed] returns false. *)
Theorem payment_received_is_not_unsubscribed (msg : value) :
  MessageTypes.isPaymentReceived msg = Normal (VBool true) ->
  MessageTypes.isUnubscribed msg = Normal (VBool false).
Proof.
  unfold MessageTypes.isPaymentReceived, MessageTypes.isUnubscribed,
    MessageTypes.cbind, MessageTypes.typeof_is.
  destruct (get msg "uuid") as [uuid |] eqn:Hu; [| discriminate].
  destruct (get_defined msg "uuid" "amountRefunded" uuid Hu) as [amount ->].
  destruct (get msg "exchange") as [exchange |]; [| discriminate].
  destruct (get msg "duration") as [duration |]; [| discriminate].
  destruct (get msg "event") as [event |]; [| discriminate].
  destruct (get msg "symbol") as [symbol |]; [| discriminate].
  intros H. injection H as H.
  apply js_and_bool_true in H as [H _].
  apply js_and_truthy in H as [H He].
  apply js_and_truthy in H as [H _].
  apply js_and_truthy in H as [Ht _].
  simpl in Ht, He. rewrite Ht.
  destruct event as [| | | | ev | | |]; simpl in He; try discriminate.
  apply String.eqb_eq in He. subst ev. reflexivity.
Qed.

Lemma payment_received_is_not_unsubscribed_witness :
  MessageTypes.isUnubscribed payment_message = Normal (VBool false).
Proof.
  apply (payment_received_is_not_unsubscribed payment_message).
  reflexivity.
Defined.

(** X15: called on null or undefined, each of the eight predicates that
    read a property of the message throws a TypeError instead of returning
    false. *)
Theorem predicates_throw_on_null (msg : value) :
  msg = VNull \/ msg = VUndefined ->
  MessageTypes.hasUuid msg = Throw TypeError
  /\ MessageTypes.isSnapshot msg = Throw TypeError
  /\ MessageTypes.isInvoice msg = Throw TypeError
  /\ MessageTypes.isInitMsg msg = Throw TypeError
  /\ MessageTypes.hasDataAndUuid msg = Throw TypeError
  /\ MessageTypes.isPaymentReceived msg = Throw TypeError
  /\ MessageTypes.isTimeWarning msg = Throw TypeError
  /\ MessageTypes.isUnubscribed msg = Throw TypeError.
Proof.
  intros [-> | ->]; repeat split.
Qed.

Lemma predicates_throw_on_null_witness :
  MessageTypes.hasUuid VNull = Throw TypeError
  /\ MessageTypes.isSnapshot VNull = Throw TypeError
  /\ MessageTypes.isInvoice VNull = Throw TypeError
  /\ MessageTypes.isInitMsg VNull = Throw TypeError
  /\ MessageTypes.hasDataAndUuid VNull = Throw TypeError
  /\ MessageTypes.isPaymentReceived VNull = Throw TypeError
  /\ MessageTypes.isTimeWarning VNull = Throw TypeError
  /\ MessageTypes.isUnubscribed VNull = Throw TypeError.
Proof.
  apply (predicates_throw_on_null VNull). left. reflexivity.
Defined.

(** X16: on a message with a string uuid whose warnings field is null,
    [isTimeWarning] throws a TypeError: null passes the test against
    undefined and its duration is then read. *)
Theorem isTimeWarning_null_warnings_throws (msg : value) (s : string) :
  get msg "uuid" = Normal (VStr s) ->
  get msg "warnings" = Normal VNull ->
  MessageTypes.isTimeWarning msg = Throw TypeError.
Proof.
  intros Hu Hw.
  unfold MessageTypes.isTimeWarning, MessageTypes.cbind. rewrite Hu. simpl.
  now rewrite Hw.
Qed.

Lemma isTimeWarning_null_warnings_throws_witness :
  MessageTypes.isTimeWarning (VObj [("uuid", VStr "x"); ("warnings", VNull)])
  = Throw TypeError.
Proof.
  apply (isTimeWarning_null_warnings_throws
           (VObj [("uuid", VStr "x"); ("warnings", VNull)]) "x").
  - reflexivity.
  - reflexivity.
Defined.

(** X17: [isTimeWarning] returns true exactly for a message with a string
    uuid and a warnings field whose duration is a number. *)
Theorem isTimeWarning_true_exactly (msg : value) :
  MessageTypes.isTimeWarning msg = Normal (VBool true)
  <-> exists s warnings n,
        get msg "uuid" = Normal (VStr s)
        /\ get msg "warnings" = Normal warnings
        /\ get warnings "duration" = Normal (VNum n).
Proof.
  unfold MessageTypes.isTimeWarning, MessageTypes.cbind, MessageTypes.typeof_is.
  split.
  - destruct (get msg "uuid") as [uuid |]; [| discriminate].
    destruct (String.eqb (typeof uuid) "string") eqn:Tu;
      [| simpl; discriminate].
    apply typeof_string in Tu as [s ->]. simpl.
    destruct (get msg "warnings") as [warnings |]; [| discriminate].
    destruct (MessageTypes.strict_neq_undefined warnings) eqn:Tw;
      [| simpl; discriminate].
    simpl.
    destruct (get warnings "duration") as [duration |] eqn:Hd; [| discriminate].
    intros H. injection H as H. apply typeof_number in H as [n ->].
    exists s, warnings, n. auto.
  - intros (s & warnings & n & -> & -> & Hd). simpl.
    assert (MessageTypes.strict_neq_undefined warnings = true) as ->
      by (destruct warnings; try reflexivity; discriminate).
    simpl. now rewrite Hd.
Qed.

(** X18: [isPpcDataResponse] never throws and looks at nothing inside the
    message: its result is truthy exactly when the message is truthy and the
    schema is one of the registered ones. *)
Theorem isPpcDataResponse_truthy_exactly
  {ValidationError : Type} (includes : Type_ ValidationError -> bool)
  (msg : value) (type : Type_ ValidationError) :
  exists r,
    MessageTypes.isPpcDataResponse includes msg type = Normal r
    /\ (truthy r = true <-> truthy msg = true /\ includes type = true).
Proof.
  unfold MessageTypes.isPpcDataResponse.
  destruct (truthy msg) eqn:Tm; eexists; (split; [reflexivity |]).
  - simpl. tauto.
  - rewrite Tm. split; [discriminate | intros [H _]; discriminate].
Qed.

(** X19: [isExchangeDataResponse] never throws: its result is truthy
    exactly when the message is truthy, its data field is truthy and the
    schema is one of the registered ones. *)
Theorem isExchangeDataResponse_truthy_exactly
  {ValidationError : Type} (includes : Type_ ValidationError -> bool)
  (msg : value) (type : Type_ ValidationError) :
  exists r,
    MessageTypes.isExchangeDataResponse includes msg type = Normal r
    /\ (truthy r = true
        <-> truthy msg = true
            /\ (exists d, get msg "data" = Normal d /\ truthy d = true)
            /\ includes type = true).
Proof.
  unfold MessageTypes.isExchangeDataResponse, MessageTypes.cbind.
  destruct (truthy msg) eqn:Tm.
  - destruct (get_of_truthy msg "data" Tm) as [d Hd]. rewrite Hd.
    eexists. split; [reflexivity |].
    rewrite js_and_truthy. simpl. split.
    + intros [Td Hi]. eauto.
    + intros (_ & (d' & Hd' & Td) & Hi). injection Hd' as ->. auto.
  - exists msg. split; [reflexivity |]. rewrite Tm.
    split; [discriminate | intros [H _]; discriminate].
Qed.

(** ** The validators and the classifier together *)

(** X20: what [snapshot] returns for an accepted frame satisfies
    [isSnapshot] exactly when the envelope's uuid is a string and the decoder
    returned an array; a truthy uuid of another type passes the validator
    but its result is not classified as a snapshot. *)
Theorem snapshot_result_classified
  {ValidationError : Type} (getMessage : ValidationError -> string)
  (JSON_parse : string -> option value) (type : Type_ ValidationError)
  (onError : OnError) (frame : string) (uuid snap decoded : value) :
  envelope JSON_parse frame "snapshot" uuid snap ->
  truthy uuid = true ->
  Array_isArray snap = true ->
  decode type snap = inr decoded ->
  exists r,
    outcome (snapshot getMessage JSON_parse frame type onError) = Normal r
    /\ (MessageTypes.isSnapshot r = Normal (VBool true)
        <-> (exists s, uuid = VStr s) /\ (exists elems, decoded = VArr elems)).
Proof.
  intros He Tu Ta Hd.
  rewrite (snapshot_unfold _ getMessage JSON_parse type onError frame uuid snap He).
  rewrite Tu, (array_truthy snap Ta), Ta. simpl.
  rewrite (validate_ok _ getMessage _ _ onError _ Hd). simpl.
  eexists. split; [reflexivity |].
  rewrite isSnapshot_true_iff. simpl. split.
  - intros (elems & s & Hs & Hu). injection Hs as ->. injection Hu as ->. eauto.
  - intros [[s ->] [elems ->]]. eauto.
Qed.

Lemma snapshot_result_classified_witness :
  exists r,
    outcome (snapshot Schemas.getMessage JsonReader.read_json
                      Frames.numeric_uuid Schemas.numbers Schemas.strict)
      = Normal r
    /\ (MessageTypes.isSnapshot r = Normal (VBool true)
        <-> (exists s, VNum 7 = VStr s)
            /\ (exists elems, VArr [VNum 1; VNum 2] = VArr elems)).
Proof.
  apply (snapshot_result_classified Schemas.getMessage JsonReader.read_json
           Schemas.numbers Schemas.strict Frames.numeric_uuid
           (VNum 7) (VArr [VNum 1; VNum 2]) (VArr [VNum 1; VNum 2])).
  - eexists. split; [vm_compute; reflexivity | split; reflexivity].
  - reflexivity.
  - reflexivity.
  - reflexivity.
Defined.

(** X21: what [data] returns for an accepted frame satisfies
    [hasDataAndUuid] exactly when the envelope's uuid is a string and the
    decoder returned an array. *)
Theorem data_result_classified
  {ValidationError : Type} (getMessage : ValidationError -> string)
  (JSON_parse : string -> option value) (type : Type_ ValidationError)
  (onError : OnError) (frame : string) (uuid dat decoded : value) :
  envelope JSON_parse frame "data" uuid dat ->
  truthy uuid = true ->
  truthy dat = true ->
  decode type dat = inr decoded ->
  exists r,
    outcome (data getMessage JSON_parse frame type onError) = Normal r
    /\ (MessageTypes.hasDataAndUuid r = Normal (VBool true)
        <-> (exists s, uuid = VStr s) /\ (exists elems, decoded = VArr elems)).
Proof.
  intros He Tu Td Hd.
  rewrite (data_unfold _ getMessage JSON_parse type onError frame uuid dat He).
  rewrite Tu, Td. simpl.
  rewrite (validate_ok _ getMessage _ _ onError _ Hd). simpl.
  eexists. split; [reflexivity |].
  rewrite hasDataAndUuid_true_iff. simpl. split.
  - intros (elems & s & Hs & Hu). injection Hs as ->. injection Hu as ->. eauto.
  - intros [[s ->] [elems ->]]. eauto.
Qed.

Lemma data_result_classified_witness :
  exists r,
    outcome (data Schemas.getMessage JsonReader.read_json Frames.object_data
                  Schemas.any Schemas.strict)
      = Normal r
    /\ (MessageTypes.hasDataAndUuid r = Normal (VBool true)
        <-> (exists s, VStr "abc" = VStr s)
            /\ (exists elems, VObj [("bid", VNum 1)] = VArr elems)).
Proof.
  apply (data_result_classified Schemas.getMessage JsonReader.read_json
           Schemas.any Schemas.strict Frames.object_data
           (VStr "abc") (VObj [("bid", VNum 1)]) (VObj [("bid", VNum 1)])).
  - eexists. split; [vm_compute; reflexivity | split; reflexivity].
  - reflexivity.
  - reflexivity.
  - reflexivity.
Defined.

(** X22: for a frame whose parsed message [isSnapshot] accepts, [snapshot]
    reaches the decoder exactly when the uuid is not the empty string: the
    classifier accepts an empty uuid, the validator reports it as missing. *)
Theorem classified_snapshot_needs_nonempty_uuid
  {ValidationError : Type} (getMessage : ValidationError -> string)
  (JSON_parse : string -> option value) (type : Type_ ValidationError)
  (onError : OnError) (frame : string) (json : value) :
  JSON_parse frame = Some json ->
  MessageTypes.isSnapshot json = Normal (VBool true) ->
  (decoder_reached (snapshot getMessage JSON_parse frame type onError)
   <-> get json "uuid" <> Normal (VStr EmptyString)).
Proof.
  intros Hp Hc.
  apply isSnapshot_true_iff in Hc as (elems & s & Hs & Hu).
  assert (envelope JSON_parse frame "snapshot" (VStr s) (VArr elems)) as He
    by (exists json; auto).
  rewrite Hu.
  destruct (truthy (VStr s)) eqn:Tu.
  - split; [| intros _].
    + intros _ H. injection H as ->. discriminate.
    + destruct (snapshot_run_of _ getMessage JSON_parse type onError frame)
        as [Hn | j Hj Hnull | u p m He' Hc' Hm
            | u p d He' Tu' Tp Hd | u p errors He' Tu' Tp Hd].
      * congruence.
      * rewrite Hp in Hj. injection Hj as <-.
        destruct Hnull as [-> | ->]; discriminate.
      * destruct He' as (j & Hj & Hu' & Hs').
        rewrite Hp in Hj. injection Hj as <-.
        rewrite Hu in Hu'. injection Hu' as <-.
        rewrite Hs in Hs'. injection Hs' as <-.
        rewrite Tu in Hc'. discriminate.
      * exists p, (name type). simpl. auto.
      * exists p, (name type). simpl. auto.
  - rewrite (snapshot_falsy_uuid _ getMessage JSON_parse type onError frame
               json (VStr s) Hp Hu Tu).
    simpl in Tu. apply negb_false_iff, String.eqb_eq in Tu. subst s.
    split.
    + intros (p & n & [H | []]). discriminate.
    + intros H. now contradiction H.
Qed.

Lemma classified_snapshot_needs_nonempty_uuid_witness :
  decoder_reached
    (snapshot Schemas.getMessage JsonReader.read_json Frames.empty_uuid
              Schemas.numbers Schemas.lenient)
  <-> get (VObj [("uuid", VStr EmptyString); ("snapshot", VArr [VNum 1]);
                 ("data", VArr [VNum 1])]) "uuid"
      <> Normal (VStr EmptyString).
Proof.
  apply (classified_snapshot_needs_nonempty_uuid Schemas.getMessage
           JsonReader.read_json Schemas.numbers Schemas.lenient
           Frames.empty_uuid).
  - vm_compute. reflexivity.
  - reflexivity.
Defined.

(** ** The summary *)

(** X23: once there are more than five messages, the summary depends only
    on how many there are and on the first five: two failures with as many
    messages and the same first five have the same summary. *)
Theorem summary_ignores_later_messages (paths paths' : list string) :
  NUM_ERRORS < List.length paths ->
  List.length paths' = List.length paths ->
  firstn NUM_ERRORS paths' = firstn NUM_ERRORS paths ->
  pathsStr paths' = pathsStr paths.
Proof.
  intros Hlong Hlen Hfirst.
  rewrite (pathsStr_long paths Hlong).
  rewrite (pathsStr_long paths') by (rewrite Hlen; exact Hlong).
  unfold NUM_ERRORS in Hfirst. now rewrite Hlen, Hfirst.
Qed.

Lemma summary_ignores_later_messages_witness :
  pathsStr ["e1"; "e2"; "e3"; "e4"; "e5"; "another"; "ending"]
  = pathsStr ["e1"; "e2"; "e3"; "e4"; "e5"; "e6"; "e7"].
Proof.
  apply summary_ignores_later_messages.
  - unfold NUM_ERRORS. simpl. lia.
  - reflexivity.
  - reflexivity.
Defined.

Lemma append_empty_r (s : string) : s ++ EmptyString = s.
Proof. induction s; simpl; congruence. Qed.

Lemma mentions_after (before phrase text : string) :
  mentions phrase text -> mentions phrase (before ++ text).
Proof.
  intros (b & a & ->). exists (before ++ b), a. now rewrite append_assoc.
Qed.

Lemma join_mentions (sep p : string) (l : list string) :
  In p l -> mentions p (join sep l).
Proof.
  induction l as [| x rest IH]; intros Hin; [destruct Hin |].
  destruct rest as [| y rest'].
  - destruct Hin as [-> | []]. exists EmptyString, EmptyString.
    simpl. now rewrite append_empty_r.
  - change (join sep (x :: y :: rest')) with (x ++ sep ++ join sep (y :: rest')).
    destruct Hin as [-> | Hin].
    + now exists EmptyString, (sep ++ join sep (y :: rest')).
    + apply mentions_after, mentions_after. now apply IH.
Qed.

(** X24: each of the first five messages of a failed decode occurs in the
    summary, whatever the number of messages. *)
Theorem summary_mentions_first_messages (paths : list string) (p : string) :
  In p (firstn NUM_ERRORS paths) ->
  mentions p (pathsStr paths).
Proof.
  intros Hin.
  destruct (Nat.le_gt_cases (List.length paths) NUM_ERRORS) as [Hle | Hgt].
  - rewrite (pathsStr_short paths Hle).
    rewrite firstn_all2 in Hin by exact Hle.
    now apply join_mentions.
  - rewrite (pathsStr_long paths Hgt).
    apply mentions_after, mentions_after. now apply join_mentions.
Qed.

Lemma summary_mentions_first_messages_witness :
  mentions "e5" (pathsStr ["e1"; "e2"; "e3"; "e4"; "e5"; "e6"; "e7"]).
Proof.
  apply summary_mentions_first_messages.
  simpl. auto 6.
Defined.
